(** * Job recommendation pipeline (model.py): a shallow embedding

    The development follows [JobRecommendationSystem] of [model.py]:
    text extraction, feature encoding, prediction and ranking, course
    enrichment through the generative-language API with its fallback text
    parser, and the orchestrating [process_resume_file].

    Conventions.
    - A Python [str] is a [string]; a character is a code point below 256
      (Latin-1), with Python's whitespace and lower-casing on that range.
    - A Python exception is a value of [exn]; code that may raise returns an
      [outcome].  Only subclasses of [Exception] are modelled.
    - The objects the class holds and the libraries it calls (file system,
      pdfplumber, docx, the vectorizer, the Keras model, numpy's argsort,
      requests, json) are the fields of an environment record [Env].
    - Scores are rationals: every finite float is one, with the same order.
      NaN is left out.
    - [print] calls have no effect on any result and are left out. *)

From Stdlib Require Import Ascii String QArith.
From stdpp Require Import base list strings gmap pretty sorting.

Local Open Scope string_scope.
Local Open Scope Z_scope.
Local Open Scope list_scope.

(** ** Python strings *)

Module PyStr.

Definition code (c : ascii) : N := N_of_ascii c.

(** [str.isspace] on one character, for code points below 256. *)
Definition is_space (c : ascii) : bool :=
  let n := code c in
  ((9 <=? n) && (n <=? 13) || (28 <=? n) && (n <=? 32)
   || (n =? 133) || (n =? 160))%N.

(** [str.lower] on one character, for code points below 256. *)
Definition lower_char (c : ascii) : ascii :=
  let n := code c in
  if ((65 <=? n) && (n <=? 90)
      || (192 <=? n) && (n <=? 222) && negb (n =? 215))%N
  then ascii_of_N (n + 32) else c.

Fixpoint lower (s : string) : string :=
  match s with
  | EmptyString => EmptyString
  | String c s' => String (lower_char c) (lower s')
  end.

Fixpoint lstrip (s : string) : string :=
  match s with
  | EmptyString => EmptyString
  | String c s' => if is_space c then lstrip s' else s
  end.

Fixpoint rstrip (s : string) : string :=
  match s with
  | EmptyString => EmptyString
  | String c s' =>
      match rstrip s' with
      | EmptyString => if is_space c then EmptyString else String c EmptyString
      | r => String c r
      end
  end.

(** [s.strip()] *)
Definition strip (s : string) : string := rstrip (lstrip s).

(** [s.startswith(p)] *)
Definition startswith (p s : string) : bool := String.prefix p s.

(** [s.endswith(p)] *)
Fixpoint endswith (p s : string) : bool :=
  String.eqb p s
  || match s with
     | EmptyString => false
     | String _ s' => endswith p s'
     end.

(** [s.startswith((p1, ..., pn))] *)
Definition startswith_any (ps : list string) (s : string) : bool :=
  existsb (fun p => startswith p s) ps.

(** [p in s] *)
Fixpoint contains (p s : string) : bool :=
  startswith p s
  || match s with
     | EmptyString => false
     | String _ s' => contains p s'
     end.

(** [s.split(sep)] for a one-character separator. *)
Fixpoint split (sep : ascii) (s : string) : list string :=
  match s with
  | EmptyString => [EmptyString]
  | String c s' =>
      if Ascii.eqb c sep then EmptyString :: split sep s'
      else match split sep s' with
           | [] => [String c EmptyString]
           | w :: ws => String c w :: ws
           end
  end.

(** [s.split(sep, 1)]: at most one cut, at the first separator. *)
Fixpoint split1 (sep : ascii) (s : string) : list string :=
  match s with
  | EmptyString => [EmptyString]
  | String c s' =>
      if Ascii.eqb c sep then [EmptyString; s']
      else match split1 sep s' with
           | [] => [String c EmptyString]
           | w :: ws => String c w :: ws
           end
  end.

(** [sep.join(l)] *)
Definition join (sep : string) (l : list string) : string :=
  String.concat sep l.

(** [s.find(c)]: the first index of [c], or -1. *)
Fixpoint find (c : ascii) (s : string) : Z :=
  match s with
  | EmptyString => -1
  | String d s' =>
      if Ascii.eqb d c then 0
      else let r := find c s' in if r <? 0 then -1 else r + 1
  end.

(** [s.rfind(c)]: the last index of [c], or -1. *)
Fixpoint rfind (c : ascii) (s : string) : Z :=
  match s with
  | EmptyString => -1
  | String d s' =>
      let r := rfind c s' in
      if 0 <=? r then r + 1
      else if Ascii.eqb d c then 0 else -1
  end.

Fixpoint take (n : nat) (s : string) : string :=
  match n, s with
  | S n', String c s' => String c (take n' s')
  | _, _ => EmptyString
  end.

Fixpoint drop (n : nat) (s : string) : string :=
  match n, s with
  | S n', String _ s' => drop n' s'
  | _, _ => s
  end.

(** [s[a:b]] for indices that are not negative. *)
Definition slice (a b : Z) (s : string) : string :=
  take (Z.to_nat (b - a)) (drop (Z.to_nat a) s).

(** The last character of [p] exists and is not white space. *)
Fixpoint ends_nonspace (p : string) : bool :=
  match p with
  | EmptyString => false
  | String c EmptyString => negb (is_space c)
  | String _ p' => ends_nonspace p'
  end.

Definition newline : ascii := ascii_of_N 10.
Definition nl : string := String newline EmptyString.

End PyStr.

(** ** Exceptions and outcomes *)

(** The exception classes the code raises or tells apart; any other
    subclass of [Exception] is [OtherException] with its class name. *)
Inductive exn_class : Type :=
  | FileNotFoundError
  | ValueError
  | JSONDecodeError
  | KeyError
  | IndexError
  | TypeError
  | AttributeError
  | OtherException (name : string).

(** An exception object: its class and [str(e)]. *)
Record exn : Type := Exn { exn_cls : exn_class; exn_str : string }.

Inductive outcome (A : Type) : Type :=
  | Ret (a : A)
  | Raise (e : exn).
Arguments Ret {A} a.
Arguments Raise {A} e.

Module Outcome.

Definition bind {A B} (k : A -> outcome B) (m : outcome A) : outcome B :=
  match m with
  | Ret a => k a
  | Raise e => Raise e
  end.

(** [try: m  except Exception as e: h e] *)
Definition try_except {A} (m : outcome A) (h : exn -> outcome A) : outcome A :=
  match m with
  | Ret a => Ret a
  | Raise e => h e
  end.

(** Run the elements in order; the first exception ends the run. *)
Fixpoint mapM {A B} (f : A -> outcome B) (l : list A) : outcome (list B) :=
  match l with
  | [] => Ret []
  | a :: l' =>
      bind (fun b => bind (fun bs => Ret (b :: bs)) (mapM f l')) (f a)
  end.

End Outcome.

#[global] Instance outcome_ret : MRet outcome := @Ret.
#[global] Instance outcome_bind : MBind outcome := @Outcome.bind.

(** ** Decoded JSON values

    What [json.loads] and [response.json()] return, and what the course
    lists are made of: [None], [bool], numbers, [str], [list], [dict].  A
    number is kept as its lexeme; a [dict] keeps its insertion order. *)
#[warnings="-register-all"]
Inductive json : Type :=
  | JNull
  | JBool (b : bool)
  | JNum (lexeme : string)
  | JStr (s : string)
  | JArr (l : list json)
  | JObj (l : list (string * json)).

(** ** Course records and the fallback text parser *)

(** The dictionary literal of the course entries: five string fields. *)
Record CourseRecord : Type := Course {
  course_name : string;
  provider : string;
  description : string;
  url : string;
  relevance : string
}.

(** The record as the Python [dict] it is, keys in insertion order. *)
Definition course_dict (c : CourseRecord) : json :=
  JObj [("course_name", JStr (course_name c));
        ("provider", JStr (provider c));
        ("description", JStr (description c));
        ("url", JStr (url c));
        ("relevance", JStr (relevance c))].

Definition set_course_name (v : string) (c : CourseRecord) : CourseRecord :=
  Course v (provider c) (description c) (url c) (relevance c).
Definition set_provider (v : string) (c : CourseRecord) : CourseRecord :=
  Course (course_name c) v (description c) (url c) (relevance c).
Definition set_description (v : string) (c : CourseRecord) : CourseRecord :=
  Course (course_name c) (provider c) v (url c) (relevance c).
Definition set_url (v : string) (c : CourseRecord) : CourseRecord :=
  Course (course_name c) (provider c) (description c) v (relevance c).
Definition set_relevance (v : string) (c : CourseRecord) : CourseRecord :=
  Course (course_name c) (provider c) (description c) (url c) v.

(** Truth value of a [str]: not empty. *)
Definition truthy (s : string) : bool :=
  match s with
  | EmptyString => false
  | String _ _ => true
  end.

(** The tuple given to [startswith] at line 265. *)
Definition enumerators : list string :=
  ["1."; "2."; "3."; "Course 1:"; "Course 2:"; "Course 3:"].

(** One turn of the loop of lines 264-270 on [(sections, current_section)]. *)
Definition section_step (st : list string * string) (line : string)
  : list string * string :=
  let '(sections, current_section) := st in
  if PyStr.startswith_any enumerators (PyStr.strip line) then
    ((if truthy current_section then sections ++ [current_section]
      else sections),
     line)
  else if truthy current_section then
    (sections, current_section +:+ PyStr.nl +:+ line)
  else st.

(** Lines 258-273: the text cut into course sections. *)
Definition split_sections (text : string) : list string :=
  let '(sections, current_section) :=
    fold_left section_step (PyStr.split PyStr.newline text) ([], "") in
  if truthy current_section then sections ++ [current_section] else sections.

(** [parts = line.split(':', 1); if len(parts) > 1: course[k] = parts[1].strip()] *)
Definition assign_after_colon (set : string -> CourseRecord -> CourseRecord)
    (line : string) (course : CourseRecord) : CourseRecord :=
  match PyStr.split1 ":" line with
  | _ :: value :: _ => set (PyStr.strip value) course
  | _ => course
  end.

(** One turn of the loop of lines 285-306. *)
Definition field_step (course : CourseRecord) (line0 : string) : CourseRecord :=
  let line := PyStr.strip line0 in
  let low := PyStr.lower line in
  if PyStr.contains "course" low || PyStr.contains "name" low then
    assign_after_colon set_course_name line course
  else if PyStr.contains "provider" low then
    assign_after_colon set_provider line course
  else if PyStr.contains "description" low then
    assign_after_colon set_description line course
  else if PyStr.contains "url" low || PyStr.contains "http" low then
    assign_after_colon set_url line course
  else if PyStr.contains "relevan" low then
    assign_after_colon set_relevance line course
  else course.

(** Lines 277-308: the record of one section. *)
Definition course_of_section (section : string) : CourseRecord :=
  fold_left field_step (PyStr.split PyStr.newline section)
    (Course "Unknown Course" "Unknown Provider" section "" "").

(** [_extract_courses_from_text] *)
Definition _extract_courses_from_text (text : string) : list CourseRecord :=
  take 3 (course_of_section <$> split_sections text).

(** ** The environment: the object's attributes and the libraries *)

(** A request as [requests.post(url, headers=..., json=...)] sends it. *)
Record Request : Type := {
  req_url : string;
  req_headers : list (string * string);
  req_json : json
}.

(** The response object: [status_code], the result of [json()], [text]. *)
Record Response : Type := {
  status_code : Z;
  resp_json : outcome json;
  resp_text : string
}.

Record Env : Type := {
  (** [os.path.exists] *)
  path_exists : string -> bool;
  (** [pdfplumber.open(path).pages], each page with the result of its
      [extract_text()], which is a [str] or [None] *)
  pdfplumber_open : string -> outcome (list (outcome (option string)));
  (** [docx.Document(path).paragraphs], each paragraph by its [text] *)
  docx_Document : string -> outcome (list string);
  (** [self.vectorizer.transform([text]).toarray()] *)
  vectorizer_transform : string -> outcome (list (list Q));
  (** [self.model.predict] *)
  model_predict : list (list Q) -> outcome (list (list Q));
  (** [self.model.input_shape[1]] *)
  model_input_dim : nat;
  (** [self.job_titles] *)
  job_titles : gmap string string;
  (** [np.argsort] on a vector *)
  np_argsort : list Q -> list nat;
  (** [self.gemini_api_key], [None] when the variable is not set *)
  gemini_api_key : option string;
  (** [requests.post]: the answer may depend on the calls made so far *)
  requests_post : list Request -> Request -> outcome Response;
  (** [json.loads] *)
  json_loads : string -> outcome json;
  (** how an f-string renders a decoded value that is not a [str] *)
  py_format : json -> string
}.

(** ** 4.1 Text extraction *)

(** [page.extract_text() or ""] *)
Definition or_empty (t : option string) : string :=
  match t with
  | Some s => s
  | None => ""
  end.

(** Lines 102-103: the body of the [try] for a PDF. *)
Definition read_pdf (env : Env) (file_path : string) : outcome string :=
  pages ← pdfplumber_open env file_path;
  texts ← Outcome.mapM (fun page => t ← page; mret (or_empty t)) pages;
  mret (PyStr.join PyStr.nl texts).

(** Lines 108-109: the body of the [try] for a DOCX. *)
Definition read_docx (env : Env) (file_path : string) : outcome string :=
  paragraphs ← docx_Document env file_path;
  mret (PyStr.join PyStr.nl paragraphs).

Definition extract_text_from_resume (env : Env) (file_path : string)
  : outcome string :=
  if negb (path_exists env file_path) then
    Raise (Exn FileNotFoundError ("Resume file not found: " +:+ file_path))
  else if PyStr.endswith ".pdf" (PyStr.lower file_path) then
    Outcome.try_except
      (read_pdf env file_path)
      (fun e => Raise (Exn ValueError
                         ("Error extracting text from PDF: " +:+ exn_str e)))
  else if PyStr.endswith ".docx" (PyStr.lower file_path) then
    Outcome.try_except
      (read_docx env file_path)
      (fun e => Raise (Exn ValueError
                         ("Error extracting text from DOCX: " +:+ exn_str e)))
  else
    Raise (Exn ValueError
             "Unsupported file format. Only .pdf and .docx are supported.").

(** The check of lines 100 and 106 on the extension. *)
Definition supported_format (file_path : string) : bool :=
  PyStr.endswith ".pdf" (PyStr.lower file_path)
  || PyStr.endswith ".docx" (PyStr.lower file_path).

(** The three failures of extraction, as section 4.1 of the specification
    names them.  [ExtractionError] wraps the cause the parser raised. *)
Inductive extraction_failure (env : Env) (file_path : string) : exn -> Prop :=
  | NotFound :
      path_exists env file_path = false ->
      extraction_failure env file_path
        (Exn FileNotFoundError ("Resume file not found: " +:+ file_path))
  | UnsupportedFormat :
      path_exists env file_path = true ->
      supported_format file_path = false ->
      extraction_failure env file_path
        (Exn ValueError
             "Unsupported file format. Only .pdf and .docx are supported.")
  | ExtractionError_pdf (cause : exn) :
      path_exists env file_path = true ->
      PyStr.endswith ".pdf" (PyStr.lower file_path) = true ->
      read_pdf env file_path = Raise cause ->
      extraction_failure env file_path
        (Exn ValueError ("Error extracting text from PDF: " +:+ exn_str cause))
  | ExtractionError_docx (cause : exn) :
      path_exists env file_path = true ->
      PyStr.endswith ".pdf" (PyStr.lower file_path) = false ->
      PyStr.endswith ".docx" (PyStr.lower file_path) = true ->
      read_docx env file_path = Raise cause ->
      extraction_failure env file_path
        (Exn ValueError ("Error extracting text from DOCX: " +:+ exn_str cause)).


(** ** 4.2 Feature encoding *)

(** [np.zeros((1, d))] *)
Definition np_zeros_row (d : nat) : list (list Q) := [replicate d 0%Q].

Definition preprocess_resume (env : Env) (resume_text : string)
  : outcome (list (list Q)) :=
  Outcome.try_except
    (vectorizer_transform env resume_text)
    (fun _ => Ret (np_zeros_row (model_input_dim env))).

(** ** 4.3, 4.4 Scoring and ranking *)

Record Recommendation : Type := {
  job_title : string;
  confidence : Q
}.

(** [a[i]] on a sequence, for an index that is not negative. *)
Definition getitem {A} (a : list A) (i : nat) : outcome A :=
  match a !! i with
  | Some x => Ret x
  | None => Raise (Exn IndexError "index out of bounds")
  end.

(** [a[start:]] with Python's treatment of a negative or too large start. *)
Definition slice_from {A} (start : Z) (a : list A) : list A :=
  let n := Z.of_nat (length a) in
  let s := if start <? 0 then Z.max (start + n) 0 else Z.min start n in
  drop (Z.to_nat s) a.

(** Line 151, after line 149 has cut [top_n] down:
    [np.argsort(predictions[0])[-top_n:][::-1]]. *)
Definition top_indices (env : Env) (scores : list Q) (top_n : Z) : list nat :=
  let top_n := Z.min top_n (Z.of_nat (size (job_titles env))) in
  reverse (slice_from (- top_n) (np_argsort env scores)).

(** The entry of the comprehension of lines 153-159 for one index. *)
Definition recommendation_at (env : Env) (scores : list Q) (idx : nat)
  : outcome Recommendation :=
  let title :=
    default ("Job Category " +:+ pretty (idx + 1)%nat)
            (job_titles env !! pretty idx) in
  score ← getitem scores idx;
  mret {| job_title := title; confidence := score |}.

Definition prediction_error : list Recommendation :=
  [{| job_title := "Error in prediction"; confidence := 0 |}].

(** Lines 149-159: the ranking of one score vector. *)
Definition rank (env : Env) (scores : list Q) (top_n : Z)
  : outcome (list Recommendation) :=
  Outcome.mapM (recommendation_at env scores) (top_indices env scores top_n).

Definition get_top_job_recommendations (env : Env) (resume_text : string)
    (top_n : Z) : outcome (list Recommendation) :=
  features ← preprocess_resume env resume_text;
  Outcome.try_except
    (predictions ← model_predict env features;
     scores ← getitem predictions 0;
     rank env scores top_n)
    (fun _ => Ret prediction_error).

(** ** Subscripts and methods on decoded values *)

Module PyVal.

(** Lookup in a [dict] kept as a list of items with distinct keys. *)
Fixpoint lookup (k : string) (items : list (string * json)) : option json :=
  match items with
  | [] => None
  | (k', v) :: rest => if String.eqb k k' then Some v else lookup k rest
  end.

(** [d[k] = v]: a present key keeps its place, a new one goes last. *)
Fixpoint store (k : string) (v : json) (items : list (string * json))
  : list (string * json) :=
  match items with
  | [] => [(k, v)]
  | (k', v') :: rest =>
      if String.eqb k k' then (k, v) :: rest else (k', v') :: store k v rest
  end.

(** A number lexeme with a fraction or an exponent is a [float]. *)
Definition is_float_lexeme (lexeme : string) : bool :=
  PyStr.contains "." lexeme || PyStr.contains "e" lexeme
  || PyStr.contains "E" lexeme || PyStr.contains "N" lexeme
  || PyStr.contains "I" lexeme.

Definition type_name (v : json) : string :=
  match v with
  | JNull => "NoneType"
  | JBool _ => "bool"
  | JNum lexeme => if is_float_lexeme lexeme then "float" else "int"
  | JStr _ => "str"
  | JArr _ => "list"
  | JObj _ => "dict"
  end.

Definition not_subscriptable (v : json) : exn :=
  Exn TypeError ("'" +:+ type_name v +:+ "' object is not subscriptable").

Definition no_attribute (v : json) (attr : string) : exn :=
  Exn AttributeError
      ("'" +:+ type_name v +:+ "' object has no attribute '" +:+ attr +:+ "'").

(** [v[k]] for a [str] key [k]. *)
Definition getitem_key (v : json) (k : string) : outcome json :=
  match v with
  | JObj items =>
      match lookup k items with
      | Some x => Ret x
      | None => Raise (Exn KeyError ("'" +:+ k +:+ "'"))
      end
  | JArr _ =>
      Raise (Exn TypeError "list indices must be integers or slices, not str")
  | JStr _ =>
      Raise (Exn TypeError "string indices must be integers, not 'str'")
  | _ => Raise (not_subscriptable v)
  end.

(** [v[0]] *)
Definition getitem_0 (v : json) : outcome json :=
  match v with
  | JArr l =>
      match l with
      | x :: _ => Ret x
      | [] => Raise (Exn IndexError "list index out of range")
      end
  | JStr s =>
      match s with
      | String c _ => Ret (JStr (String c EmptyString))
      | EmptyString => Raise (Exn IndexError "string index out of range")
      end
  | JObj _ => Raise (Exn KeyError "0")
  | _ => Raise (not_subscriptable v)
  end.

(** [v.get(k, default)] *)
Definition get (v : json) (k : string) (default : json) : outcome json :=
  match v with
  | JObj items => Ret (from_option id default (lookup k items))
  | _ => Raise (no_attribute v "get")
  end.

(** The receiver of [.find] and [.rfind] has to be a [str]. *)
Definition as_str (v : json) : outcome string :=
  match v with
  | JStr s => Ret s
  | _ => Raise (no_attribute v "find")
  end.

End PyVal.

(** ** 4.5 Course enrichment *)

(** The log of the requests sent so far, threaded through the calls that
    can reach the network. *)
Definition NetLog : Type := list Request.

Definition Net (A : Type) : Type := NetLog -> outcome A * NetLog.

Module Net.

Definition ret {A} (a : A) : Net A := fun log => (Ret a, log).

Definition bind {A B} (k : A -> Net B) (m : Net A) : Net B :=
  fun log =>
    match m log with
    | (Ret a, log') => k a log'
    | (Raise e, log') => (Raise e, log')
    end.

Definition lift {A} (m : outcome A) : Net A := fun log => (m, log).

(** [try: m  except Exception as e: h e] *)
Definition try_except {A} (m : Net A) (h : exn -> Net A) : Net A :=
  fun log =>
    match m log with
    | (Ret a, log') => (Ret a, log')
    | (Raise e, log') => h e log'
    end.

(** A [for] loop that appends one result per element. *)
Fixpoint mapM {A B} (f : A -> Net B) (l : list A) : Net (list B) :=
  match l with
  | [] => ret []
  | a :: l' => bind (fun b => bind (fun bs => ret (b :: bs)) (mapM f l')) (f a)
  end.

(** [requests.post]: the request is sent, whatever comes back. *)
Definition post (env : Env) (req : Request) : Net Response :=
  fun log => (requests_post env log req, log ++ [req]).

End Net.

#[global] Instance Net_ret : MRet Net := @Net.ret.
#[global] Instance Net_bind : MBind Net := @Net.bind.

(** [not self.gemini_api_key]: the key is [None] or empty. *)
Definition key_missing (key : option string) : bool :=
  match key with
  | Some k => negb (truthy k)
  | None => true
  end.

Definition gemini_api_url : string :=
  "https://generativelanguage.googleapis.com/v1beta/models/gemini-pro:generateContent".

(** The f-string of lines 182-197. *)
Definition prompt_of (job_title resume_text : string) : string :=
  let ind := "        " in
  String.concat PyStr.nl
    [""; ind +:+ "Based on this resume: ";
     ind;
     ind +:+ resume_text;
     ind;
     ind +:+ "I need 3 specific training courses available online that would help this person qualify for a "
         +:+ job_title +:+ " position.";
     ind;
     ind +:+ "For each course, provide:";
     ind +:+ "1. Course name";
     ind +:+ "2. Provider (website/platform)";
     ind +:+ "3. Brief description of what skills it will teach";
     ind +:+ "4. URL if available";
     ind +:+ "5. Why it's relevant for this specific job";
     ind;
     ind +:+ "Format as a JSON list with course name, provider, description, url, and relevance fields.";
     ind].

Definition request_for (key job_title resume_text : string) : Request :=
  {| req_url := gemini_api_url;
     req_headers := [("Content-Type", "application/json");
                     ("x-goog-api-key", key)];
     req_json :=
       JObj [("contents",
              JArr [JObj [("parts",
                           JArr [JObj [("text",
                                        JStr (prompt_of job_title resume_text))]])]])] |}.

Definition api_key_missing : CourseRecord :=
  Course "API Key Missing" "N/A"
         "No Gemini API key provided in environment variables." ""
         "Please set the VITE_GEMINI_API_KEY environment variable.".

Definition api_error (error_msg : string) : CourseRecord :=
  Course "API Error" "N/A" error_msg ""
         "Please check your API key and network connection.".

Definition api_exception (e : exn) : CourseRecord :=
  Course "Exception" "N/A"
         ("Exception when calling Gemini API: " +:+ exn_str e) ""
         "Please check your network connection.".

(** A list of course records as the Python list of dicts it is. *)
Definition course_list (l : list CourseRecord) : json :=
  JArr (course_dict <$> l).

(** [except json.JSONDecodeError] *)
Definition is_JSONDecodeError (e : exn) : bool :=
  match exn_cls e with
  | JSONDecodeError => true
  | _ => false
  end.

(** Lines 215-218: the span from the first opening bracket to the last
    closing one, when the test of line 217 passes. *)
Definition bracket_span (text_response : string) : option string :=
  let json_start := PyStr.find "[" text_response in
  let json_end := PyStr.rfind "]" text_response + 1 in
  if (0 <=? json_start) && (0 <? json_end)
  then Some (PyStr.slice json_start json_end text_response)
  else None.

(** Lines 213-223: the text of a 200 answer turned into a course list. *)
Definition parse_text_response (env : Env) (text_response : string)
  : outcome json :=
  let fallback := course_list (_extract_courses_from_text text_response) in
  Outcome.try_except
    (match bracket_span text_response with
     | Some json_content => json_loads env json_content
     | None => Ret fallback
     end)
    (fun e => if is_JSONDecodeError e then Ret fallback else Raise e).

(** No list comes out of the brackets of [text]: there is no span, or the
    decoder refuses the span as malformed. *)
Definition no_list_decoded (env : Env) (text : string) : Prop :=
  match bracket_span text with
  | Some json_content =>
      exists e, json_loads env json_content = Raise e
                /\ is_JSONDecodeError e = true
  | None => True
  end.

(** No line of [text] starts, after its leading white space, with one of
    the enumerators. *)
Definition no_enumerated_line (text : string) : Prop :=
  forall line, line ∈ PyStr.split PyStr.newline text ->
               PyStr.startswith_any enumerators (PyStr.lstrip line) = false.

(** Lines 211-212. *)
Definition text_of_response (response : Response) : outcome json :=
  response_data ← resp_json response;
  candidates ← PyVal.getitem_key response_data "candidates";
  candidate ← PyVal.getitem_0 candidates;
  content ← PyVal.getitem_key candidate "content";
  parts ← PyVal.getitem_key content "parts";
  part ← PyVal.getitem_0 parts;
  PyVal.getitem_key part "text".

(** How an f-string renders a decoded value. *)
Definition format_value (env : Env) (v : json) : string :=
  match v with
  | JStr s => s
  | _ => py_format env v
  end.

(** Lines 225-230. *)
Definition error_message (env : Env) (response : Response) : outcome string :=
  let error_msg := "Error calling Gemini API: " +:+ pretty (status_code response) in
  Outcome.try_except
    (body ← resp_json response;
     error ← PyVal.get body "error" (JObj []);
     error_detail ← PyVal.get error "message" (JStr "Unknown error");
     mret (error_msg +:+ " - " +:+ format_value env error_detail))
    (fun _ => Ret (error_msg +:+ " - " +:+ PyStr.take 100 (resp_text response))).

(** Lines 208-238: what happens inside the outer [try]. *)
Definition call_api (env : Env) (key job_title resume_text : string) : Net json :=
  response ← Net.post env (request_for key job_title resume_text);
  if status_code response =? 200 then
    Net.lift (text_value ← text_of_response response;
              text_response ← PyVal.as_str text_value;
              parse_text_response env text_response)
  else
    Net.lift (error_msg ← error_message env response;
              mret (course_list [api_error error_msg])).

Definition get_training_courses (env : Env) (job_title resume_text : string)
  : Net json :=
  if key_missing (gemini_api_key env) then mret (course_list [api_key_missing])
  else
    let key := default "" (gemini_api_key env) in
    Net.try_except
      (call_api env key job_title resume_text)
      (fun e => mret (course_list [api_exception e])).

(** ** 4.6 The pipeline *)

(** One entry of ["recommendations"]. *)
Record JobResult : Type := {
  result_job_title : string;
  result_confidence : Q;
  training_courses : json
}.

(** The two shapes of the returned [dict]. *)
Inductive PipelineResult : Type :=
  | Recommendations (results : list JobResult)
  | Error (message : string).

(** Lines 327-334: one turn of the loop. *)
Definition enrich_job (env : Env) (resume_text : string) (job : Recommendation)
  : Net JobResult :=
  courses ← get_training_courses env (job_title job) resume_text;
  mret {| result_job_title := job_title job;
          result_confidence := confidence job;
          training_courses := courses |}.

(** Lines 323-334: the body of the [try]; [top_n] has its default, 3. *)
Definition pipeline_body (env : Env) (file_path : string) : Net (list JobResult) :=
  resume_text ← Net.lift (extract_text_from_resume env file_path);
  job_recommendations ← Net.lift (get_top_job_recommendations env resume_text 3);
  Net.mapM (enrich_job env resume_text) job_recommendations.

Definition process_resume_file (env : Env) (file_path : string)
  : Net PipelineResult :=
  Net.try_except
    (results ← pipeline_body env file_path;
     mret (Recommendations results))
    (fun e => mret (Error (exn_str e))).

(** ** Reference instances of the libraries

    The theorems below hold for every environment.  Concrete inputs are run
    with the instances of this section: a decoder for JSON texts and a
    stable argsort, one of the sorts that meet the contract of
    [np.argsort]. *)

Module JsonRef.

(** The decoder's whitespace: space, tab, line feed, carriage return. *)
Definition is_ws (c : ascii) : bool :=
  let n := PyStr.code c in ((n =? 32) || (n =? 9) || (n =? 10) || (n =? 13))%N.

Fixpoint skip_ws (s : string) : string :=
  match s with
  | String c s' => if is_ws c then skip_ws s' else s
  | EmptyString => EmptyString
  end.

Definition is_digit (c : ascii) : bool :=
  let n := PyStr.code c in ((48 <=? n) && (n <=? 57))%N.

(** The longest run of digits at the front, and what follows it. *)
Fixpoint digits (s : string) : string * string :=
  match s with
  | String c s' =>
      if is_digit c then let '(d, r) := digits s' in (String c d, r)
      else (EmptyString, s)
  | EmptyString => (EmptyString, EmptyString)
  end.

(** The integer part: a single 0, or digits that start with 1 to 9. *)
Definition int_part (s : string) : option (string * string) :=
  match s with
  | String "0" r => Some ("0", r)
  | String c _ => if is_digit c then Some (digits s) else None
  | EmptyString => None
  end.

(** The optional fraction: a dot and at least one digit. *)
Definition frac_part (s : string) : string * string :=
  match s with
  | String "." r =>
      match digits r with
      | (EmptyString, _) => (EmptyString, s)
      | (d, r') => (String "." d, r')
      end
  | _ => (EmptyString, s)
  end.

(** The optional exponent: e or E, an optional sign, at least one digit. *)
Definition exp_part (s : string) : string * string :=
  match s with
  | String e r =>
      if Ascii.eqb e "e" || Ascii.eqb e "E" then
        let '(sign, r1) :=
          match r with
          | String g r' =>
              if Ascii.eqb g "-" || Ascii.eqb g "+"
              then (String g EmptyString, r') else (EmptyString, r)
          | EmptyString => (EmptyString, r)
          end in
        match digits r1 with
        | (EmptyString, _) => (EmptyString, s)
        | (d, r2) => (String e (sign +:+ d), r2)
        end
      else (EmptyString, s)
  | EmptyString => (EmptyString, s)
  end.

Definition number (s : string) : option (string * string) :=
  let '(sign, s1) :=
    match s with
    | String "-" r => ("-", r)
    | _ => ("", s)
    end in
  '(i, s2) ← int_part s1;
  let '(f, s3) := frac_part s2 in
  let '(e, s4) := exp_part s3 in
  Some (sign +:+ i +:+ f +:+ e, s4).

Definition hex_value (c : ascii) : option N :=
  let n := PyStr.code c in
  if ((48 <=? n) && (n <=? 57))%N then Some (n - 48)%N
  else if ((65 <=? n) && (n <=? 70))%N then Some (n - 55)%N
  else if ((97 <=? n) && (n <=? 102))%N then Some (n - 87)%N
  else None.

Definition dquote : ascii := ascii_of_N 34.

(** The character an escape letter stands for. *)
Definition escaped (e : ascii) : option ascii :=
  if Ascii.eqb e dquote then Some dquote
  else if Ascii.eqb e "\" then Some "\"%char
  else if Ascii.eqb e "/" then Some "/"%char
  else if Ascii.eqb e "b" then Some (ascii_of_N 8)
  else if Ascii.eqb e "f" then Some (ascii_of_N 12)
  else if Ascii.eqb e "n" then Some (ascii_of_N 10)
  else if Ascii.eqb e "r" then Some (ascii_of_N 13)
  else if Ascii.eqb e "t" then Some (ascii_of_N 9)
  else None.

(** The characters of a string after its opening quote, up to the
    closing one.  An escape [\uXXXX] above 00FF names a character that
    the strings of this development do not have; it is refused here. *)
Fixpoint string_body (s : string) : option (string * string) :=
  match s with
  | EmptyString => None
  | String "\" (String "u" (String a (String b (String c (String d r))))) =>
      ha ← hex_value a; hb ← hex_value b; hc ← hex_value c; hd ← hex_value d;
      '(t, r') ← string_body r;
      if ((ha =? 0) && (hb =? 0))%N
      then Some (String (ascii_of_N (16 * hc + hd)) t, r') else None
  | String "\" (String e r) =>
      ch ← escaped e;
      '(t, r') ← string_body r;
      Some (String ch t, r')
  | String c r =>
      if Ascii.eqb c dquote then Some (EmptyString, r)
      else if (PyStr.code c <? 32)%N || Ascii.eqb c "\" then None
      else '(t, r') ← string_body r; Some (String c t, r')
  end.

Definition literal (s : string) : option (json * string) :=
  if String.prefix "null" s then Some (JNull, PyStr.drop 4 s)
  else if String.prefix "true" s then Some (JBool true, PyStr.drop 4 s)
  else if String.prefix "false" s then Some (JBool false, PyStr.drop 5 s)
  else if String.prefix "NaN" s then Some (JNum "NaN", PyStr.drop 3 s)
  else if String.prefix "Infinity" s then Some (JNum "Infinity", PyStr.drop 8 s)
  else if String.prefix "-Infinity" s then Some (JNum "-Infinity", PyStr.drop 9 s)
  else None.

(** One value at the front of [s]; [elements] and [members] continue an
    array and an object after their first bracket.  Each call uses one
    unit of [fuel]. *)
Fixpoint value (fuel : nat) (s : string) : option (json * string) :=
  match fuel with
  | O => None
  | S fuel' =>
      match s with
      | String "[" r =>
          match skip_ws r with
          | String "]" r' => Some (JArr [], r')
          | r' => '(l, r'') ← elements fuel' r'; Some (JArr l, r'')
          end
      | String "{" r =>
          match skip_ws r with
          | String "}" r' => Some (JObj [], r')
          | r' => '(m, r'') ← members fuel' r' []; Some (JObj m, r'')
          end
      | String c r =>
          if Ascii.eqb c dquote then
            '(t, r') ← string_body r; Some (JStr t, r')
          else
            match literal s with
            | Some res => Some res
            | None => '(n, r') ← number s; Some (JNum n, r')
            end
      | EmptyString => None
      end
  end
with elements (fuel : nat) (s : string) : option (list json * string) :=
  match fuel with
  | O => None
  | S fuel' =>
      '(v, r) ← value fuel' s;
      match skip_ws r with
      | String "]" r' => Some ([v], r')
      | String "," r' =>
          '(l, r'') ← elements fuel' (skip_ws r'); Some (v :: l, r'')
      | _ => None
      end
  end
with members (fuel : nat) (s : string) (acc : list (string * json))
  : option (list (string * json) * string) :=
  match fuel with
  | O => None
  | S fuel' =>
      match s with
      | String c r =>
          if Ascii.eqb c dquote then
            '(k, r1) ← string_body r;
            match skip_ws r1 with
            | String ":" r2 =>
                '(v, r3) ← value fuel' (skip_ws r2);
                let acc' := PyVal.store k v acc in
                match skip_ws r3 with
                | String "}" r4 => Some (acc', r4)
                | String "," r4 => members fuel' (skip_ws r4) acc'
                | _ => None
                end
            | _ => None
            end
          else None
      | EmptyString => None
      end
  end.

(** [json.loads]: one value, white space around it, nothing else.  The
    message of the error carries no position. *)
Definition loads (s : string) : outcome json :=
  match value (2 * String.length s + 2) (skip_ws s) with
  | Some (v, r) =>
      match skip_ws r with
      | EmptyString => Ret v
      | _ => Raise (Exn JSONDecodeError "Extra data")
      end
  | None => Raise (Exn JSONDecodeError "Expecting value")
  end.

End JsonRef.

(** The contract of one [np.argsort] call, and a stable instance. *)
Module Argsort.

(** [scores[i]], for an index in range. *)
Definition score_at (scores : list Q) (i : nat) : Q := default 0%Q (scores !! i).

(** Every element stands in relation [r] to every later one. *)
Fixpoint pairwise {A} (r : A -> A -> bool) (l : list A) : bool :=
  match l with
  | [] => true
  | x :: l' => forallb (r x) l' && pairwise r l'
  end.

(** [idxs] holds each index of [scores] once. *)
Definition is_index_permutation (scores : list Q) (idxs : list nat) : bool :=
  (length idxs =? length scores)%nat
  && forallb (fun i => (i <? length scores)%nat) idxs
  && pairwise (fun i j => negb (i =? j)%nat) idxs.

(** What numpy promises of [idxs = np.argsort(scores)]: the indices of
    [scores], each once, with the scores ascending. *)
Definition is_argsort (scores : list Q) (idxs : list nat) : bool :=
  is_index_permutation scores idxs
  && pairwise (fun i j => Qle_bool (score_at scores i) (score_at scores j)) idxs.

(** Equal scores keep the order of their indices. *)
Definition keeps_ties (scores : list Q) (idxs : list nat) : bool :=
  pairwise (fun i j => negb (Qeq_bool (score_at scores i) (score_at scores j))
                       || (i <? j)%nat) idxs.

(** What a stable sort ([kind='stable']) promises in addition. *)
Definition is_stable_argsort (scores : list Q) (idxs : list nat) : bool :=
  is_argsort scores idxs && keeps_ties scores idxs.

(** Insertion of index [i] in front of the first index whose score is not
    below its own. *)
Fixpoint insert (scores : list Q) (i : nat) (idxs : list nat) : list nat :=
  match idxs with
  | [] => [i]
  | j :: rest =>
      if Qle_bool (score_at scores i) (score_at scores j) then i :: idxs
      else j :: insert scores i rest
  end.

(** Insertion sort of the indices, the last index first: stable. *)
Definition stable (scores : list Q) : list nat :=
  foldr (insert scores) [] (seq 0 (length scores)).

(** Index [i] goes before index [j] in a stable ascending sort. *)
Definition before (scores : list Q) (i j : nat) : Prop :=
  (score_at scores i < score_at scores j)%Q
  \/ ((score_at scores i == score_at scores j)%Q /\ (i < j)%nat).

(** The selected indices run from the highest score down. *)
Definition descending (scores : list Q) (idxs : list nat) : Prop :=
  StronglySorted
    (fun a b => (score_at scores b <= score_at scores a)%Q) idxs.

(** Of two selected indices with equal scores the lower one comes first:
    the order of ties that section 3 of the specification states. *)
Definition ties_lower_index_first (scores : list Q) (idxs : list nat) : Prop :=
  StronglySorted
    (fun a b => (score_at scores a == score_at scores b)%Q -> (a < b)%nat) idxs.

(** Of two selected indices with equal scores the higher one comes first. *)
Definition ties_higher_index_first (scores : list Q) (idxs : list nat) : Prop :=
  StronglySorted
    (fun a b => (score_at scores a == score_at scores b)%Q -> (b < a)%nat) idxs.

End Argsort.

(** ** Concrete environments *)

Module Demo.

Definition dq : string := String JsonRef.dquote EmptyString.

(** A text as a JSON string token; the texts used here need no escapes. *)
Definition quoted (s : string) : string := dq +:+ s +:+ dq.

(** The body of a 200 answer that carries [text]. *)
Definition answer_body (text : string) : json :=
  JObj [("candidates",
         JArr [JObj [("content",
                      JObj [("parts", JArr [JObj [("text", JStr text)]])])]])].

Definition answer (text : string) : Response :=
  {| status_code := 200; resp_json := Ret (answer_body text); resp_text := "" |}.

Definition titles : gmap string string :=
  <["0" := "Data Scientist"]> (<["1" := "Software Engineer"]> ∅).

(** One PDF on disk, a model of three inputs and two categories, the
    reference decoder and the stable argsort; what the vectorizer, the
    model and the API answer, and the key, vary. *)
Definition env (transform predict : outcome (list (list Q)))
    (key : option string) (reply : outcome Response) : Env :=
  {| path_exists := fun p => String.eqb p "cv.PDF";
     pdfplumber_open := fun _ => Ret [Ret (Some "Python developer"); Ret None];
     docx_Document := fun _ => Raise (Exn (OtherException "PackageNotFoundError")
                                        "Package not found");
     vectorizer_transform := fun _ => transform;
     model_predict := fun _ => predict;
     model_input_dim := 3;
     job_titles := titles;
     np_argsort := Argsort.stable;
     gemini_api_key := key;
     requests_post := fun _ _ => reply;
     json_loads := JsonRef.loads;
     py_format := fun _ => "" |}.

Definition features : list (list Q) := [[1%Q; 0%Q; 0%Q]].

Definition not_fitted : exn :=
  Exn (OtherException "NotFittedError") "The TF-IDF vectorizer is not fitted.".

Definition predict_failed : exn :=
  Exn ValueError "Input 0 of layer is incompatible with the layer".

Definition tie : list Q := [(1 # 2)%Q; (1 # 2)%Q].

Definition sample_text : string :=
  "1. Course A" +:+ PyStr.nl +:+ "Provider: Udemy" +:+ PyStr.nl
  +:+ "2. Course B" +:+ PyStr.nl +:+ "Provider: edX".

(** A list of one course, without and with its brackets. *)
Definition inner_list : string :=
  "{" +:+ quoted "course_name" +:+ ":" +:+ quoted "X" +:+ "}".

Definition embedded_list : string := "[" +:+ inner_list +:+ "]".

End Demo.

(** ** Notions for the properties of the fallback parser *)

(** The test of line 265 on one line. *)
Definition is_enumerated (line : string) : bool :=
  PyStr.startswith_any enumerators (PyStr.strip line).

Fixpoint count_enumerated (lines : list string) : nat :=
  match lines with
  | [] => 0
  | line :: rest =>
      (if is_enumerated line then 1 else 0) + count_enumerated rest
  end.

(** The lines from the first enumerated one on. *)
Fixpoint from_first_enumerated (lines : list string) : list string :=
  match lines with
  | [] => []
  | line :: rest =>
      if is_enumerated line then lines else from_first_enumerated rest
  end.

(** ** Construction: [__init__] (lines 19-82) *)

(** A loaded Keras model: [predict], [input_shape[1]], [output_shape[1]]. *)
Record Model : Type := {
  predict : list (list Q) -> outcome (list (list Q));
  input_dim : nat;
  output_dim : nat
}.

(** What [__init__] reads from the machine. *)
Record Host : Type := {
  (** [os.path.exists] *)
  os_path_exists : string -> bool;
  (** [os.path.getsize] *)
  os_path_getsize : string -> outcome Z;
  (** [load_model] *)
  load_model : string -> outcome Model;
  (** [open(path, "rb")] and [pickle.load]: the vectorizer, given by
      its [transform([text]).toarray()] *)
  load_vectorizer : string -> outcome (string -> outcome (list (list Q)));
  (** [open(path)] and [json.load], for a file that holds an object whose
      values are strings *)
  load_job_titles : string -> outcome (gmap string string);
  (** [os.environ.get] *)
  environ_get : string -> option string
}.

(** The attributes that [__init__] sets. *)
Record System : Type := {
  self_model : Model;
  self_vectorizer : string -> outcome (list (list Q));
  self_job_titles : gmap string string;
  self_gemini_api_key : option string;
  self_gemini_api_url : string
}.

(** Lines 72 and 76: [{str(i): f"Job Category {i+1}" for i in range(n)}]. *)
Definition default_job_titles (n : nat) : gmap string string :=
  list_to_map
    ((fun i => (pretty i, "Job Category " +:+ pretty (i + 1)%nat)) <$> seq 0 n).

(** Lines 64-76: the mapping file, or the default mapping when the file is
    missing or cannot be read. *)
Definition job_titles_of (host : Host) (model : Model) (job_mapping_path : string)
  : outcome (gmap string string) :=
  Outcome.try_except
    (if os_path_exists host job_mapping_path
     then load_job_titles host job_mapping_path
     else Ret (default_job_titles (output_dim model)))
    (fun _ => Ret (default_job_titles (output_dim model))).

Definition __init__ (host : Host)
    (model_path vectorizer_path job_mapping_path : string) : outcome System :=
  if negb (os_path_exists host model_path) then
    Raise (Exn FileNotFoundError ("Model file not found: " +:+ model_path))
  else
    model_size ← os_path_getsize host model_path;
    model ← Outcome.try_except (load_model host model_path) (fun e => Raise e);
    vectorizer ← Outcome.try_except (load_vectorizer host vectorizer_path)
                   (fun e => Raise e);
    titles ← job_titles_of host model job_mapping_path;
    mret {| self_model := model;
            self_vectorizer := vectorizer;
            self_job_titles := titles;
            self_gemini_api_key := environ_get host "VITE_GEMINI_API_KEY";
            self_gemini_api_url := gemini_api_url |}.

(** ** The keyword system of the fallback mode (lines 442-510) *)

Module FallbackSystem.

(** [s.count(sub)]: occurrences that do not overlap, from the left;
    [skip] characters of the last occurrence are still to be passed. *)
Fixpoint count_from (sub : string) (skip : nat) (s : string) : nat :=
  match s with
  | EmptyString => if truthy sub then 0 else 1
  | String _ s' =>
      match skip with
      | S k => count_from sub k s'
      | O =>
          if PyStr.startswith sub s
          then S (count_from sub (String.length sub - 1) s')
          else count_from sub 0 s'
      end
  end.

Definition count (sub s : string) : nat := count_from sub 0 s.

(** Lines 443-463.  [read_text] is [open(path, 'r').read()]. *)
Definition extract_text_from_resume (env : Env)
    (read_text : string -> outcome string) (file_path : string)
  : outcome string :=
  if PyStr.endswith ".pdf" (PyStr.lower file_path) then
    Outcome.try_except (read_pdf env file_path)
      (fun e => Ret ("Error extracting text: " +:+ exn_str e))
  else if PyStr.endswith ".docx" (PyStr.lower file_path) then
    Outcome.try_except (read_docx env file_path)
      (fun e => Ret ("Error extracting text: " +:+ exn_str e))
  else if PyStr.endswith ".txt" (PyStr.lower file_path) then
    Outcome.try_except (read_text file_path)
      (fun e => Ret ("Error reading text file: " +:+ exn_str e))
  else Ret "Unsupported file format. Only .pdf, .docx, and .txt are supported.".

(** Lines 469-475, in the order of the dictionary. *)
Definition keywords : list (string * list string) :=
  [("Data Scientist",
    ["data science"; "machine learning"; "python"; "statistics"; "analytics";
     "data analysis"; "pandas"; "numpy"; "sklearn"]);
   ("Software Engineer",
    ["software"; "programming"; "development"; "java"; "python"; "javascript";
     "code"; "algorithm"; "api"]);
   ("Product Manager",
    ["product"; "management"; "strategy"; "roadmap"; "agile"; "scrum";
     "user experience"; "prioritization"]);
   ("UX Designer",
    ["design"; "user experience"; "ux"; "ui"; "wireframe"; "prototype";
     "usability"; "sketch"; "figma"]);
   ("DevOps Engineer",
    ["devops"; "ci/cd"; "pipeline"; "aws"; "cloud"; "docker"; "kubernetes";
     "infrastructure"])].

(** Line 481. *)
Definition job_score (resume_text_lower : string) (terms : list string) : nat :=
  sum_list ((fun term => count (PyStr.lower term) resume_text_lower) <$> terms).

(** Lines 478-482: the items of [job_scores]. *)
Definition job_scores (resume_text : string) : list (string * nat) :=
  (fun entry => (fst entry, job_score (PyStr.lower resume_text) (snd entry)))
    <$> keywords.

(** [sorted(items, key=lambda x: x[1], reverse=True)]: Python's sort is
    stable, also when reversed, so items with equal scores keep their
    order.  An item goes in front of the first one whose score is not
    above its own. *)
Fixpoint insert_desc (x : string * nat) (l : list (string * nat))
  : list (string * nat) :=
  match l with
  | [] => [x]
  | y :: l' => if (snd y <=? snd x)%nat then x :: l else y :: insert_desc x l'
  end.

Definition sorted_desc (l : list (string * nat)) : list (string * nat) :=
  foldr insert_desc [] l.

(** [min(a, b)] and [max(a, b)] of Python: the first argument wins a tie. *)
Definition py_min (a b : Q) : Q := if Qle_bool a b then a else b.
Definition py_max (a b : Q) : Q := if Qle_bool b a then a else b.

(** [round(x, 2)] on a rational: to the nearest hundredth, a tie to the
    even one. *)
Definition round2 (x : Q) : Q :=
  let t := (x * 100)%Q in
  let f := (Qnum t / Z.pos (Qden t))%Z in
  let r := (t - inject_Z f)%Q in
  let up := if Qle_bool r (1 # 2)
            then (if Qle_bool (1 # 2) r then Z.odd f else false)
            else true in
  (inject_Z (if up then f + 1 else f) / 100)%Q.

(** Lines 491 and 495.  The arithmetic is that of the rationals. *)
Definition confidence_of (score : nat) : Q :=
  round2 (py_min (19 # 20)
            (py_max (1 # 2) ((1 # 2) + inject_Z (Z.of_nat score) / 10)))%Q.

(** Lines 493-505. *)
Definition recommendation_of (entry : string * nat) : JobResult :=
  let job := fst entry in
  {| result_job_title := job;
     result_confidence := confidence_of (snd entry);
     training_courses :=
       course_list
         [Course (job +:+ " Fundamentals") "Coursera"
                 ("Comprehensive training for " +:+ job +:+ " roles")
                 "https://www.coursera.org" "Core professional skills"] |}.

(** The returned [dict]: ["resume_text"] and ["recommendations"]. *)
Record Result : Type := {
  resume_text_preview : string;
  recommendations : list JobResult
}.

(** Line 508. *)
Definition preview (resume_text : string) : string :=
  PyStr.take 500 resume_text
  +:+ (if (500 <? String.length resume_text)%nat then "..." else "").

(** Lines 468-510, on the extracted text. *)
Definition analyse (resume_text : string) : Result :=
  {| resume_text_preview := preview resume_text;
     recommendations :=
       recommendation_of <$> take 3 (sorted_desc (job_scores resume_text)) |}.

Definition process_resume_file (env : Env)
    (read_text : string -> outcome string) (file_path : string)
  : outcome Result :=
  resume_text ← extract_text_from_resume env read_text file_path;
  mret (analyse resume_text).

End FallbackSystem.

(** ** Further concrete cases *)

Module Cases.

Definition timed_out : exn :=
  Exn (OtherException "ConnectTimeout") "Connection to the API timed out.".

(** An answer that refuses the request and says why. *)
Definition quota_exceeded : Response :=
  {| status_code := 429;
     resp_json :=
       Ret (JObj [("error",
                   JObj [("code", JNum "429");
                         ("message", JStr "Quota exceeded")])]);
     resp_text := "" |}.

(** A machine with a model of two outputs and a fitted vectorizer; the
    mapping file is there or not, and when there it is damaged. *)
Definition host (mapping_exists : bool) : Host :=
  {| os_path_exists :=
       fun p => String.eqb p "model/model3.h5"
                || (mapping_exists && String.eqb p "job_titles.json");
     os_path_getsize := fun _ => Ret 250000;
     load_model :=
       fun _ => Ret {| predict := fun _ => Ret [Demo.tie];
                       input_dim := 3; output_dim := 2 |};
     load_vectorizer := fun _ => Ret (fun _ => Ret Demo.features);
     load_job_titles :=
       fun _ => Raise (Exn JSONDecodeError "Expecting value");
     environ_get := fun _ => None |}.

(** The object that this machine gives, with the reference libraries. *)
Definition default_env : Env :=
  {| path_exists := fun _ => true;
     pdfplumber_open := fun _ => Ret [];
     docx_Document := fun _ => Ret [];
     vectorizer_transform := fun _ => Ret Demo.features;
     model_predict := fun _ => Ret [Demo.tie];
     model_input_dim := 3;
     job_titles := default_job_titles 2;
     np_argsort := Argsort.stable;
     gemini_api_key := None;
     requests_post := fun _ _ => Raise timed_out;
     json_loads := JsonRef.loads;
     py_format := fun _ => "" |}.

(** A resume without any word of the keyword table. *)
Definition plain_text : string := "Pastry chef, ten years in bakeries.".

End Cases.

(** * Properties *)

(** ** Strings *)

Section StringFacts.

Import PyStr.

Lemma prefix_empty_r p : p <> EmptyString -> String.prefix p EmptyString = false.
Proof. destruct p; [congruence | reflexivity]. Qed.

(** Stripping on the right cannot cut into a prefix that ends with a
    character other than white space. *)
Lemma prefix_rstrip p :
  forall s, ends_nonspace p = true ->
            String.prefix p (rstrip s) = String.prefix p s.
Proof.
  induction p as [|c p' IH]; intros s Hp; [discriminate|].
  destruct s as [|d s']; [reflexivity|].
  assert (Htail : p' <> EmptyString ->
                  String.prefix p' (rstrip s') = String.prefix p' s').
  { intros Hne. apply IH. destruct p'; [congruence | exact Hp]. }
  cbn [rstrip].
  destruct (rstrip s') as [|e r] eqn:Hr.
  - destruct (is_space d) eqn:Hd; cbn [String.prefix].
    + destruct (ascii_dec c d) as [->|]; [|reflexivity].
      destruct p' as [|c' p''].
      * cbn in Hp. rewrite Hd in Hp. discriminate.
      * rewrite <- Htail by congruence. reflexivity.
    + destruct (ascii_dec c d) as [->|]; [|reflexivity].
      destruct p' as [|c' p'']; [destruct s'; reflexivity|].
      rewrite <- Htail by congruence. reflexivity.
  - cbn [String.prefix].
    destruct (ascii_dec c d) as [->|]; [|reflexivity].
    destruct p' as [|c' p'']; [destruct s'; reflexivity|].
    rewrite <- Htail by congruence. reflexivity.
Qed.

(** Line 265 sees the same lines whether the right side is stripped or not. *)
Lemma enumerated_strip line :
  startswith_any enumerators (strip line)
  = startswith_any enumerators (lstrip line).
Proof.
  unfold startswith_any, enumerators, startswith, strip. cbn [existsb].
  rewrite !prefix_rstrip by reflexivity. reflexivity.
Qed.

End StringFacts.

(** ** The fallback parser *)

Lemma section_step_plain st line :
  PyStr.startswith_any enumerators (PyStr.lstrip line) = false ->
  snd st = EmptyString ->
  section_step st line = st.
Proof.
  intros Hline Hcur. destruct st as [sections current]. cbn in Hcur. subst.
  unfold section_step. rewrite enumerated_strip, Hline. reflexivity.
Qed.

Lemma fold_section_step_plain lines :
  forall sections,
    (forall line, line ∈ lines ->
                  PyStr.startswith_any enumerators (PyStr.lstrip line) = false) ->
    fold_left section_step lines (sections, EmptyString)
    = (sections, EmptyString).
Proof.
  induction lines as [|line lines IH]; intros sections Hall; [reflexivity|].
  cbn [fold_left]. rewrite section_step_plain.
  - apply IH. intros l Hl. apply Hall. by right.
  - apply Hall. by left.
  - reflexivity.
Qed.

Lemma split_sections_plain text :
  no_enumerated_line text -> split_sections text = [].
Proof.
  intros Hall. unfold split_sections.
  rewrite fold_section_step_plain by exact Hall. reflexivity.
Qed.

Lemma extract_courses_plain text :
  no_enumerated_line text -> _extract_courses_from_text text = [].
Proof.
  intros Hall. unfold _extract_courses_from_text.
  rewrite split_sections_plain by exact Hall. reflexivity.
Qed.

Lemma extract_courses_length text :
  (length (_extract_courses_from_text text) <= 3)%nat.
Proof. unfold _extract_courses_from_text. rewrite length_take. lia. Qed.

(** C2: on the sample text the fallback parser gives two records, with
    providers Udemy and edX in that order; on every text it gives the first
    three assembled sections at most. *)
Theorem fallback_parser_sample_and_cap :
  _extract_courses_from_text Demo.sample_text
  = [Course "Unknown Course" "Udemy"
            ("1. Course A" +:+ PyStr.nl +:+ "Provider: Udemy") "" "";
     Course "Unknown Course" "edX"
            ("2. Course B" +:+ PyStr.nl +:+ "Provider: edX") "" ""]
  /\ provider <$> _extract_courses_from_text Demo.sample_text = ["Udemy"; "edX"]
  /\ forall text,
       _extract_courses_from_text text
       = take 3 (course_of_section <$> split_sections text)
       /\ (length (_extract_courses_from_text text) <= 3)%nat.
Proof.
  split; [vm_compute; reflexivity|].
  split; [vm_compute; reflexivity|].
  intros text. split; [reflexivity | apply extract_courses_length].
Qed.

(** ** Outcomes *)

Lemma mapM_raises {A B} (f : A -> outcome B) (l : list A) :
  (exists a e, a ∈ l /\ f a = Raise e) ->
  exists e, Outcome.mapM f l = Raise e.
Proof.
  induction l as [|a l IH]; intros (x & e & Hin & Hx).
  - by apply elem_of_nil in Hin.
  - cbn. destruct (f a) as [b|e'] eqn:Hfa; cbn; [|by eexists].
    apply elem_of_cons in Hin as [->|Hin]; [congruence|].
    destruct IH as [e' He']; [by exists x, e|].
    rewrite He'. by eexists.
Qed.

Lemma mapM_length {A B} (f : A -> outcome B) (l : list A) (bs : list B) :
  Outcome.mapM f l = Ret bs -> length bs = length l.
Proof.
  revert bs. induction l as [|a l IH]; intros bs; cbn.
  - intros [= <-]. reflexivity.
  - destruct (f a) as [b|]; cbn; [|discriminate].
    destruct (Outcome.mapM f l) as [bs'|]; cbn; [|discriminate].
    intros [= <-]. cbn. f_equal. by apply IH.
Qed.

(** ** 4.1 Text extraction *)

Section Extraction.

Context (env : Env) (file_path : string).

Lemma extract_raises e :
  extract_text_from_resume env file_path = Raise e
  <-> extraction_failure env file_path e.
Proof.
  unfold extract_text_from_resume. split.
  - destruct (path_exists env file_path) eqn:Hex; cbn [negb].
    2:{ intros [= <-]. by constructor. }
    destruct (PyStr.endswith ".pdf" _) eqn:Hpdf.
    { destruct (read_pdf env file_path) as [|cause] eqn:Hread; cbn; [discriminate|].
      intros [= <-]. by apply ExtractionError_pdf. }
    destruct (PyStr.endswith ".docx" _) eqn:Hdocx.
    { destruct (read_docx env file_path) as [|cause] eqn:Hread; cbn; [discriminate|].
      intros [= <-]. by apply ExtractionError_docx. }
    intros [= <-]. apply UnsupportedFormat; [done|].
    unfold supported_format. by rewrite Hpdf, Hdocx.
  - intros [Hex | Hex Hsup | cause Hex Hpdf Hread | cause Hex Hpdf Hdocx Hread];
      rewrite Hex; cbn [negb]; [done | | |].
    + unfold supported_format in Hsup.
      apply orb_false_iff in Hsup as [-> ->]. done.
    + rewrite Hpdf, Hread. done.
    + rewrite Hpdf, Hdocx, Hread. done.
Qed.



End Extraction.



(** ** 4.2 Feature encoding *)

Lemma preprocess_resume_returns env resume_text :
  exists features, preprocess_resume env resume_text = Ret features.
Proof.
  unfold preprocess_resume.
  destruct (vectorizer_transform env resume_text); cbn; by eexists.
Qed.

(** C8: when the transform raises, [preprocess_resume] raises nothing and
    returns one row of zeros, as wide as the model's input. *)
Theorem preprocess_resume_masks_failure (env : Env) (resume_text : string) (e : exn) :
  vectorizer_transform env resume_text = Raise e ->
  preprocess_resume env resume_text = Ret [replicate (model_input_dim env) 0%Q]
  /\ length (replicate (model_input_dim env) 0%Q) = model_input_dim env
  /\ Forall (fun x => x = 0%Q) (replicate (model_input_dim env) 0%Q).
Proof.
  intros Hraise. unfold preprocess_resume. rewrite Hraise. cbn.
  split; [reflexivity|]. split; [apply length_replicate|].
  apply Forall_replicate. reflexivity.
Qed.

Lemma preprocess_resume_masks_failure_witness :
  preprocess_resume
    (Demo.env (Raise Demo.not_fitted) (Ret [Demo.tie]) None (Ret (Demo.answer "")))
    "Python developer"
  = Ret [[0%Q; 0%Q; 0%Q]].
Proof.
  exact (proj1 (preprocess_resume_masks_failure
                  (Demo.env (Raise Demo.not_fitted) (Ret [Demo.tie]) None
                            (Ret (Demo.answer "")))
                  "Python developer" Demo.not_fitted eq_refl)).
Defined.

(** ** 4.3, 4.4 Ranking *)

Section Ranking.

Import Argsort.

Lemma pairwise_sorted {A} (r : A -> A -> bool) (l : list A) :
  pairwise r l = true <-> StronglySorted (fun x y => r x y = true) l.
Proof.
  induction l as [|x l IH]; cbn.
  - split; [constructor | reflexivity].
  - rewrite andb_true_iff, StronglySorted_cons, IH, forallb_forall, Forall_forall.
    setoid_rewrite list_elem_of_In. tauto.
Qed.

Lemma sorted_weaken {A} (R1 R2 : A -> A -> Prop) (l : list A) :
  (forall x y, R1 x y -> R2 x y) -> StronglySorted R1 l -> StronglySorted R2 l.
Proof.
  intros Himp Hs. induction Hs as [|x l _ IH Hx]; constructor; [exact IH|].
  eapply Forall_impl; [exact Hx | auto].
Qed.

Lemma sorted_drop {A} (R : A -> A -> Prop) (n : nat) (l : list A) :
  StronglySorted R l -> StronglySorted R (drop n l).
Proof.
  intros Hs. rewrite <- (take_drop n l) in Hs.
  by apply StronglySorted_app_1_r in Hs.
Qed.

Lemma sorted_reverse {A} (R : A -> A -> Prop) (l : list A) :
  StronglySorted R l -> StronglySorted (flip R) (reverse l).
Proof.
  induction 1 as [|x l _ IH Hx]; [constructor|].
  rewrite reverse_cons. apply StronglySorted_app. split; [|split].
  - intros a b Ha Hb. apply list_elem_of_singleton in Hb as ->.
    rewrite elem_of_reverse in Ha. rewrite Forall_forall in Hx.
    unfold flip. by apply Hx.
  - exact IH.
  - repeat constructor.
Qed.

(** A slice [a[start:]] drops a prefix of [a]. *)
Lemma slice_from_drop {A} (start : Z) (a : list A) :
  exists k, slice_from start a = drop k a.
Proof. unfold slice_from. by eexists. Qed.

(** Line 151 reverses a suffix of what [np.argsort] returned. *)
Lemma top_indices_reversed_suffix env scores top_n :
  exists k, top_indices env scores top_n = reverse (drop k (np_argsort env scores)).
Proof.
  unfold top_indices.
  destruct (slice_from_drop (- Z.min top_n (Z.of_nat (size (job_titles env))))
              (np_argsort env scores)) as [k ->].
  by exists k.
Qed.

Lemma top_indices_sorted (R : nat -> nat -> Prop) env scores top_n :
  StronglySorted R (np_argsort env scores) ->
  StronglySorted (flip R) (top_indices env scores top_n).
Proof.
  intros Hs. destruct (top_indices_reversed_suffix env scores top_n) as [k ->].
  by apply sorted_reverse, sorted_drop.
Qed.

Lemma top_indices_in_range env scores top_n :
  is_index_permutation scores (np_argsort env scores) = true ->
  Forall (fun i => (i < length scores)%nat) (top_indices env scores top_n).
Proof.
  unfold is_index_permutation. rewrite !andb_true_iff. intros [[_ Hr] _].
  destruct (top_indices_reversed_suffix env scores top_n) as [k ->].
  apply Forall_reverse, Forall_drop. rewrite Forall_forall. intros i Hi.
  rewrite forallb_forall in Hr. apply list_elem_of_In, Hr in Hi.
  by apply Nat.ltb_lt in Hi.
Qed.

(** The entry that lines 154-157 build for index [idx]. *)
Lemma recommendation_at_in_range env scores idx :
  (idx < length scores)%nat ->
  recommendation_at env scores idx
  = Ret {| job_title := default ("Job Category " +:+ pretty (idx + 1)%nat)
                                (job_titles env !! pretty idx);
           confidence := score_at scores idx |}.
Proof.
  intros Hlt. unfold recommendation_at, getitem, score_at.
  destruct (lookup_lt_is_Some_2 scores idx Hlt) as [x ->]. reflexivity.
Qed.

Lemma mapM_recommendations env scores idxs :
  Forall (fun i => (i < length scores)%nat) idxs ->
  exists recs,
    Outcome.mapM (recommendation_at env scores) idxs = Ret recs
    /\ confidence <$> recs = score_at scores <$> idxs.
Proof.
  induction 1 as [|idx idxs Hidx _ (recs & Hrecs & Hconf)]; cbn.
  - by exists [].
  - rewrite (recommendation_at_in_range env scores idx Hidx), Hrecs. cbn.
    eexists. split; [reflexivity|]. cbn. by rewrite Hconf.
Qed.

Lemma sorted_fmap_inv {A B} (f : A -> B) (R : B -> B -> Prop) (l : list A) :
  StronglySorted R (f <$> l) -> StronglySorted (fun x y => R (f x) (f y)) l.
Proof.
  induction l as [|x l IH]; cbn; [constructor|].
  rewrite !StronglySorted_cons, Forall_fmap. intros [Hx Hl]. split; auto.
Qed.

Lemma top_indices_descending env scores top_n :
  is_argsort scores (np_argsort env scores) = true ->
  descending scores (top_indices env scores top_n).
Proof.
  unfold is_argsort. rewrite andb_true_iff, pairwise_sorted. intros [_ Hs].
  eapply sorted_weaken; [|apply top_indices_sorted, Hs].
  intros a b. unfold flip. apply Qle_bool_iff.
Qed.

Lemma top_indices_ties env scores top_n :
  keeps_ties scores (np_argsort env scores) = true ->
  ties_higher_index_first scores (top_indices env scores top_n).
Proof.
  unfold keeps_ties. rewrite pairwise_sorted. intros Hs.
  eapply sorted_weaken; [|apply top_indices_sorted, Hs].
  intros a b. unfold flip. rewrite orb_true_iff, negb_true_iff.
  intros [Hne | Hlt] Heq.
  - symmetry in Heq. apply Qeq_bool_iff in Heq. congruence.
  - by apply Nat.ltb_lt.
Qed.

Lemma slice_from_length {A} (start : Z) (a : list A) :
  Z.of_nat (length (slice_from start a))
  = if start <? 0 then Z.min (- start) (Z.of_nat (length a))
    else Z.max (Z.of_nat (length a) - start) 0.
Proof.
  unfold slice_from. rewrite length_drop.
  destruct (start <? 0) eqn:Hs; lia.
Qed.

(** For a positive [top_n] and a mapping that is not empty, at most
    [min(top_n, category_count)] indices are selected. *)
Lemma top_indices_length_positive env scores top_n :
  length (np_argsort env scores) = length scores ->
  1 <= top_n -> (1 <= size (job_titles env))%nat ->
  Z.of_nat (length (top_indices env scores top_n))
  <= Z.min top_n (Z.of_nat (length scores)).
Proof.
  intros Hlen Hn Hsize. unfold top_indices.
  rewrite length_reverse, slice_from_length, Hlen.
  destruct (_ <? 0) eqn:Hs; lia.
Qed.

(** With [top_n] cut down to 0, [a[-0:]] is all of [a]. *)
Lemma top_indices_length_zero env scores top_n :
  Z.min top_n (Z.of_nat (size (job_titles env))) = 0 ->
  length (top_indices env scores top_n) = length (np_argsort env scores).
Proof.
  intros Hzero. unfold top_indices. rewrite Hzero, length_reverse.
  apply Nat2Z.inj. rewrite slice_from_length.
  change (- 0 <? 0) with false. lia.
Qed.

(** [rank] returns one recommendation per selected index. *)
Lemma rank_length env scores top_n :
  is_argsort scores (np_argsort env scores) = true ->
  exists recs, rank env scores top_n = Ret recs
               /\ length recs = length (top_indices env scores top_n).
Proof.
  unfold is_argsort. rewrite andb_true_iff. intros [Hperm _].
  destruct (mapM_recommendations env scores _
              (top_indices_in_range env scores top_n Hperm))
    as (recs & Hrecs & _).
  exists recs. split; [exact Hrecs|]. by apply mapM_length in Hrecs.
Qed.

(** *** The stable instance meets the contract *)

Lemma before_trans scores i j k :
  before scores i j -> before scores j k -> before scores i k.
Proof.
  unfold before. intros [Hij | [Hij Hlt1]] [Hjk | [Hjk Hlt2]].
  - left. by eapply Qlt_trans.
  - left. by rewrite <- Hjk.
  - left. by rewrite Hij.
  - right. split; [by rewrite Hij | lia].
Qed.

Lemma insert_perm scores i idxs : insert scores i idxs ≡ₚ i :: idxs.
Proof.
  induction idxs as [|j rest IH]; cbn; [reflexivity|].
  destruct (Qle_bool _ _); [reflexivity|].
  rewrite IH. apply Permutation_swap.
Qed.

Lemma insert_sorted scores i idxs :
  StronglySorted (before scores) idxs ->
  Forall (fun j => (i < j)%nat) idxs ->
  StronglySorted (before scores) (insert scores i idxs).
Proof.
  induction 1 as [|j rest Hrest IH Hj]; intros Hlt; cbn.
  - repeat constructor.
  - apply Forall_cons in Hlt as [Hij Hlt].
    destruct (Qle_bool _ _) eqn:Hle.
    + assert (Hbefore : before scores i j).
      { apply Qle_bool_iff, Qle_lteq in Hle as [Hle | Heq]; [by left | by right]. }
      constructor; [by constructor|]. constructor; [exact Hbefore|].
      eapply Forall_impl; [exact Hj|]. intros k Hk. by eapply before_trans.
    + constructor; [by apply IH|].
      rewrite insert_perm. constructor; [|exact Hj].
      left. apply Qnot_le_lt. intros Hle'. apply Qle_bool_iff in Hle'. congruence.
Qed.

Lemma foldr_insert_sorted scores n :
  forall k,
    StronglySorted (before scores) (foldr (insert scores) [] (seq k n))
    /\ foldr (insert scores) [] (seq k n) ≡ₚ seq k n.
Proof.
  induction n as [|n IH]; intros k; cbn.
  - split; [constructor | reflexivity].
  - destruct (IH (S k)) as [Hs Hp]. split.
    + apply insert_sorted; [exact Hs|]. rewrite Hp.
      apply Forall_forall. intros j Hj. apply elem_of_seq in Hj. lia.
    + by rewrite insert_perm, Hp.
Qed.

(** Insertion sort returns what a stable [np.argsort] promises. *)
Lemma stable_is_stable_argsort scores :
  is_stable_argsort scores (stable scores) = true.
Proof.
  destruct (foldr_insert_sorted scores (length scores) 0) as [Hs Hp].
  fold (stable scores) in Hs, Hp.
  unfold is_stable_argsort, is_argsort, is_index_permutation, keeps_ties.
  rewrite !andb_true_iff, !pairwise_sorted. repeat split.
  - apply Nat.eqb_eq. by rewrite Hp, length_seq.
  - apply forallb_forall. intros i Hi. apply Nat.ltb_lt.
    apply list_elem_of_In in Hi. rewrite Hp in Hi. apply elem_of_seq in Hi. lia.
  - eapply sorted_weaken; [|exact Hs]. intros i j Hij.
    apply negb_true_iff, Nat.eqb_neq. intros ->.
    destruct Hij as [Hlt | [_ Hlt]]; [by apply Qlt_irrefl in Hlt | lia].
  - eapply sorted_weaken; [|exact Hs]. intros i j [Hlt | [Heq _]];
      apply Qle_bool_iff; [by apply Qlt_le_weak | rewrite Heq; apply Qle_refl].
  - eapply sorted_weaken; [|exact Hs]. intros i j [Hlt | [_ Hlt]];
      apply orb_true_iff.
    + left. apply negb_true_iff. destruct (Qeq_bool _ _) eqn:Heq; [|reflexivity].
      apply Qeq_bool_iff in Heq. rewrite Heq in Hlt. by apply Qlt_irrefl in Hlt.
    + right. by apply Nat.ltb_lt.
Qed.

End Ranking.

(** C4, as the code has it: the selected recommendations come in descending
    order of confidence; the selection is a suffix of what [np.argsort]
    returned, reversed, so equal scores come in the reverse of the order
    the sort left them in, and after a sort that keeps ties in index order
    the higher index comes first. *)
Theorem ranking_descending_ties_reversed (env : Env) (scores : list Q) (top_n : Z) :
  Argsort.is_argsort scores (np_argsort env scores) = true ->
  (exists recs,
      rank env scores top_n = Ret recs
      /\ confidence <$> recs
         = Argsort.score_at scores <$> top_indices env scores top_n
      /\ StronglySorted (fun r1 r2 => (confidence r2 <= confidence r1)%Q) recs)
  /\ Argsort.descending scores (top_indices env scores top_n)
  /\ (exists k,
         top_indices env scores top_n = reverse (drop k (np_argsort env scores)))
  /\ (Argsort.keeps_ties scores (np_argsort env scores) = true ->
      Argsort.ties_higher_index_first scores (top_indices env scores top_n)).
Proof.
  intros Hsort.
  pose proof (top_indices_descending env scores top_n Hsort) as Hdesc.
  split; [|split; [exact Hdesc|split]].
  - unfold Argsort.is_argsort in Hsort. apply andb_true_iff in Hsort as [Hperm _].
    destruct (mapM_recommendations env scores _
                (top_indices_in_range env scores top_n Hperm))
      as (recs & Hrecs & Hconf).
    exists recs. split; [exact Hrecs|]. split; [exact Hconf|].
    apply (sorted_fmap_inv confidence (fun x y => (y <= x)%Q)). rewrite Hconf.
    eapply StronglySorted_fmap; [|exact Hdesc]. auto.
  - apply top_indices_reversed_suffix.
  - apply top_indices_ties.
Qed.

Lemma ranking_descending_ties_reversed_witness :
  Argsort.descending [(1 # 2)%Q; (4 # 5)%Q; (1 # 2)%Q]
    (top_indices
       (Demo.env (Ret Demo.features) (Ret [Demo.tie]) None (Ret (Demo.answer "")))
       [(1 # 2)%Q; (4 # 5)%Q; (1 # 2)%Q] 3)
  /\ Argsort.ties_higher_index_first [(1 # 2)%Q; (4 # 5)%Q; (1 # 2)%Q]
       (top_indices
          (Demo.env (Ret Demo.features) (Ret [Demo.tie]) None (Ret (Demo.answer "")))
          [(1 # 2)%Q; (4 # 5)%Q; (1 # 2)%Q] 3).
Proof.
  destruct (ranking_descending_ties_reversed
              (Demo.env (Ret Demo.features) (Ret [Demo.tie]) None
                        (Ret (Demo.answer "")))
              [(1 # 2)%Q; (4 # 5)%Q; (1 # 2)%Q] 3 eq_refl)
    as (_ & Hdesc & _ & Hties).
  split; [exact Hdesc | apply Hties; reflexivity].
Defined.

(** C4 as stated fails: two categories with the same score, sorted by a
    stable argsort, come out with index 1 before index 0. *)
Lemma ranking_ties_lower_index_first_fails :
  Argsort.is_stable_argsort Demo.tie
    (np_argsort
       (Demo.env (Ret Demo.features) (Ret [Demo.tie]) None (Ret (Demo.answer "")))
       Demo.tie) = true
  /\ top_indices
       (Demo.env (Ret Demo.features) (Ret [Demo.tie]) None (Ret (Demo.answer "")))
       Demo.tie 3 = [1%nat; 0%nat]
  /\ rank
       (Demo.env (Ret Demo.features) (Ret [Demo.tie]) None (Ret (Demo.answer "")))
       Demo.tie 3
     = Ret [{| job_title := "Software Engineer"; confidence := (1 # 2)%Q |};
            {| job_title := "Data Scientist"; confidence := (1 # 2)%Q |}]
  /\ ~ Argsort.ties_lower_index_first Demo.tie
         (top_indices
            (Demo.env (Ret Demo.features) (Ret [Demo.tie]) None
                      (Ret (Demo.answer "")))
            Demo.tie 3).
Proof.
  split; [reflexivity|]. split; [reflexivity|]. split; [reflexivity|].
  change (top_indices _ Demo.tie 3) with [1%nat; 0%nat].
  intros Hs. apply StronglySorted_inv in Hs as [_ Hfirst].
  apply Forall_inv in Hfirst.
  assert (Hlt : (1 < 0)%nat) by (apply Hfirst; reflexivity).
  lia.
Qed.

(** C5 at its failing inputs: when [top_n] is 0, or the mapping is empty,
    line 149 leaves 0 and the slice [[-0:]] keeps every index, so [rank]
    returns one recommendation per category. *)
Theorem rank_zero_returns_all :
  (forall env scores top_n,
      Argsort.is_argsort scores (np_argsort env scores) = true ->
      Z.min top_n (Z.of_nat (size (job_titles env))) = 0 ->
      exists recs, rank env scores top_n = Ret recs
                   /\ length recs = length scores)
  /\ rank
       (Demo.env (Ret Demo.features) (Ret [Demo.tie]) None (Ret (Demo.answer "")))
       [(1 # 5)%Q; (4 # 5)%Q] 0
     = Ret [{| job_title := "Software Engineer"; confidence := (4 # 5)%Q |};
            {| job_title := "Data Scientist"; confidence := (1 # 5)%Q |}].
Proof.
  split; [|reflexivity].
  intros env scores top_n Hsort Hzero.
  destruct (rank_length env scores top_n Hsort) as (recs & Hrecs & Hlen).
  exists recs. split; [exact Hrecs|].
  rewrite Hlen, (top_indices_length_zero env scores top_n Hzero).
  unfold Argsort.is_argsort, Argsort.is_index_permutation in Hsort.
  rewrite !andb_true_iff in Hsort. destruct Hsort as [[[Hl _] _] _].
  by apply Nat.eqb_eq in Hl.
Qed.

Lemma rank_zero_returns_all_witness :
  exists recs,
    rank (Demo.env (Ret Demo.features) (Ret [Demo.tie]) None (Ret (Demo.answer "")))
         [(1 # 5)%Q; (4 # 5)%Q] 0 = Ret recs
    /\ length recs = 2%nat.
Proof.
  exact (proj1 rank_zero_returns_all
           (Demo.env (Ret Demo.features) (Ret [Demo.tie]) None
                     (Ret (Demo.answer "")))
           [(1 # 5)%Q; (4 # 5)%Q] 0 eq_refl eq_refl).
Defined.

(** ** 4.3 Prediction *)

Ltac run_outcome :=
  unfold mbind, mret, outcome_bind, outcome_ret,
    Outcome.bind, Outcome.try_except in *.

Ltac run_net :=
  unfold mbind, mret, Net_bind, Net_ret,
    Net.bind, Net.ret, Net.lift, Net.try_except, Net.post in *.

Lemma get_top_job_recommendations_returns env resume_text top_n :
  exists recs, get_top_job_recommendations env resume_text top_n = Ret recs.
Proof.
  unfold get_top_job_recommendations.
  destruct (preprocess_resume_returns env resume_text) as [features ->].
  run_outcome.
  destruct (model_predict env features) as [predictions|]; [|by eexists].
  destruct (getitem predictions 0) as [scores|]; [|by eexists].
  destruct (rank env scores top_n); by eexists.
Qed.

Lemma get_top_job_recommendations_predict_raises env resume_text top_n features e :
  preprocess_resume env resume_text = Ret features ->
  model_predict env features = Raise e ->
  get_top_job_recommendations env resume_text top_n = Ret prediction_error.
Proof.
  intros Hpre Hpredict. unfold get_top_job_recommendations.
  rewrite Hpre. run_outcome. by rewrite Hpredict.
Qed.

(** ** 4.5 Course enrichment *)

(** A handler that returns makes the whole [try] return. *)
Lemma net_try_except_returns {A} (m : Net A) (h : exn -> A) log :
  exists a log', Net.try_except m (fun e => mret (h e)) log = (Ret a, log').
Proof.
  run_net. destruct (m log) as [[a|e] log']; by eexists _, _.
Qed.

Lemma get_training_courses_returns env job_title resume_text log :
  exists courses log',
    get_training_courses env job_title resume_text log = (Ret courses, log').
Proof.
  unfold get_training_courses.
  destruct (key_missing (gemini_api_key env)); [by eexists _, _|].
  apply net_try_except_returns.
Qed.

Lemma get_training_courses_no_key env job_title resume_text log :
  key_missing (gemini_api_key env) = true ->
  get_training_courses env job_title resume_text log
  = (Ret (course_list [api_key_missing]), log).
Proof. intros Hkey. unfold get_training_courses. by rewrite Hkey. Qed.

(** A 200 answer that carries a text: one request goes out and the
    parser of lines 213-223 decides the result. *)
Lemma get_training_courses_200 env job_title resume_text log key response text :
  gemini_api_key env = Some key ->
  truthy key = true ->
  requests_post env log (request_for key job_title resume_text) = Ret response ->
  status_code response = 200 ->
  text_of_response response = Ret (JStr text) ->
  get_training_courses env job_title resume_text log
  = (match parse_text_response env text with
     | Ret courses => Ret courses
     | Raise e => Ret (course_list [api_exception e])
     end,
     log ++ [request_for key job_title resume_text]).
Proof.
  intros Hkey Htruthy Hpost Hstatus Htext.
  unfold get_training_courses, key_missing, call_api.
  rewrite Hkey, Htruthy. cbn [negb default from_option id].
  run_net. rewrite Hpost, Hstatus. cbn [Z.eqb Pos.eqb].
  run_outcome. rewrite Htext. cbn [PyVal.as_str].
  by destruct (parse_text_response env text).
Qed.

(** C6: without a key, [get_training_courses] returns the one record named
    API Key Missing and the log of requests is as it was. *)
Theorem no_key_gives_sentinel (env : Env) (job_title resume_text : string)
    (log : NetLog) :
  key_missing (gemini_api_key env) = true ->
  exists record,
    get_training_courses env job_title resume_text log
    = (Ret (JArr [course_dict record]), log)
    /\ course_name record = "API Key Missing".
Proof.
  intros Hkey. exists api_key_missing.
  split; [by apply get_training_courses_no_key | reflexivity].
Qed.

Lemma no_key_gives_sentinel_witness :
  exists record,
    get_training_courses
      (Demo.env (Ret Demo.features) (Ret [Demo.tie]) (Some "")
                (Ret (Demo.answer "")))
      "Data Scientist" "Python developer" []
    = (Ret (JArr [course_dict record]), [])
    /\ course_name record = "API Key Missing".
Proof.
  exact (no_key_gives_sentinel
           (Demo.env (Ret Demo.features) (Ret [Demo.tie]) (Some "")
                     (Ret (Demo.answer "")))
           "Data Scientist" "Python developer" [] eq_refl).
Defined.

(** ** The bracket span of lines 215-218 *)

Section BracketSpan.

Import PyStr.

Lemma find_lower_bound c s : -1 <= find c s.
Proof.
  induction s as [|d s IH]; cbn; [lia|].
  destruct (Ascii.eqb d c); [lia|]. destruct (find c s <? 0) eqn:Hr; lia.
Qed.

Lemma rfind_lower_bound c s : -1 <= rfind c s.
Proof.
  induction s as [|d s IH]; cbn; [lia|].
  destruct (0 <=? rfind c s) eqn:Hr; [lia|]. destruct (Ascii.eqb d c); lia.
Qed.

Lemma app_nil_l s : "" +:+ s = s.
Proof. reflexivity. Qed.

Lemma app_cons c s t : String c s +:+ t = String c (s +:+ t).
Proof. reflexivity. Qed.

(** The first [c] of [pre + c + rest] is the one after [pre], when [pre]
    has none. *)
Lemma find_app_absent c pre rest :
  find c pre = -1 ->
  find c (pre +:+ String c rest) = Z.of_nat (String.length pre).
Proof.
  induction pre as [|d pre IH]; rewrite ?app_nil_l, ?app_cons;
    cbn [find String.length].
  - intros _. by rewrite Ascii.eqb_refl.
  - destruct (Ascii.eqb d c); [discriminate|].
    pose proof (find_lower_bound c pre).
    destruct (find c pre <? 0) eqn:Hr; [|lia].
    intros _. rewrite IH by lia.
    destruct (Z.ltb_spec (Z.of_nat (String.length pre)) 0); lia.
Qed.

(** The last [c] of [s + c + post] is the one after [s], when [post] has
    none. *)
Lemma rfind_app_absent c s post :
  rfind c post = -1 ->
  rfind c (s +:+ String c post) = Z.of_nat (String.length s).
Proof.
  intros Hpost.
  induction s as [|d s IH]; rewrite ?app_nil_l, ?app_cons;
    cbn [rfind String.length].
  - rewrite Hpost, Ascii.eqb_refl. reflexivity.
  - rewrite IH. destruct (Z.leb_spec 0 (Z.of_nat (String.length s))); lia.
Qed.

Lemma drop_app_length pre s : drop (String.length pre) (pre +:+ s) = s.
Proof.
  induction pre as [|d pre IH]; rewrite ?app_nil_l, ?app_cons; cbn;
    [by destruct s | exact IH].
Qed.

Lemma take_app_length s post : take (String.length s) (s +:+ post) = s.
Proof.
  induction s as [|d s IH]; rewrite ?app_nil_l, ?app_cons; cbn;
    [by destruct post | by rewrite IH].
Qed.

Lemma length_app s t :
  String.length (s +:+ t) = (String.length s + String.length t)%nat.
Proof.
  induction s as [|d s IH]; rewrite ?app_nil_l, ?app_cons; cbn;
    [reflexivity | by rewrite IH].
Qed.

Lemma app_assoc s t u : (s +:+ t) +:+ u = s +:+ (t +:+ u).
Proof.
  induction s as [|d s IH]; rewrite ?app_nil_l, ?app_cons;
    [reflexivity | by rewrite IH].
Qed.

(** A bracketed span with no opening bracket before it and no closing
    bracket after it is the span that line 218 cuts out. *)
Lemma bracket_span_embedded pre mid post :
  find "[" pre = -1 ->
  rfind "]" post = -1 ->
  bracket_span (pre +:+ "[" +:+ mid +:+ "]" +:+ post) = Some ("[" +:+ mid +:+ "]").
Proof.
  intros Hpre Hpost. unfold bracket_span.
  rewrite !app_cons, !app_nil_l.
  rewrite (find_app_absent "[" pre _ Hpre).
  replace (pre +:+ String "[" (mid +:+ String "]" post))
    with ((pre +:+ String "[" mid) +:+ String "]" post)
    by (by rewrite app_assoc, app_cons).
  rewrite (rfind_app_absent "]" _ post Hpost).
  destruct (Z.leb_spec 0 (Z.of_nat (String.length pre))); [|lia].
  destruct (Z.ltb_spec 0 (Z.of_nat (String.length (pre +:+ String "[" mid)) + 1));
    [|lia].
  cbn [andb]. f_equal. unfold slice.
  rewrite Nat2Z.id, app_assoc, drop_app_length, app_cons.
  replace (Z.to_nat _) with (String.length (String "[" (mid +:+ "]"))).
  - replace (String "[" (mid +:+ String "]" post))
      with (String "[" (mid +:+ "]") +:+ post)
      by (by rewrite app_cons, app_assoc).
    apply take_app_length.
  - rewrite length_app. cbn [String.length]. rewrite !length_app.
    cbn [String.length]. lia.
Qed.

(** No span is cut out exactly when a bracket is missing. *)
Lemma bracket_span_none text :
  bracket_span text = None <-> find "[" text = -1 \/ rfind "]" text = -1.
Proof.
  unfold bracket_span.
  pose proof (find_lower_bound "[" text). pose proof (rfind_lower_bound "]" text).
  destruct (0 <=? _) eqn:H1; destruct (0 <? _) eqn:H2; cbn [andb];
    split; try discriminate; try lia; intros _; try reflexivity; lia.
Qed.

End BracketSpan.

Lemma parse_text_response_span env text json_content :
  bracket_span text = Some json_content ->
  parse_text_response env text
  = match json_loads env json_content with
    | Ret courses => Ret courses
    | Raise e =>
        if is_JSONDecodeError e
        then Ret (course_list (_extract_courses_from_text text))
        else Raise e
    end.
Proof. intros Hspan. unfold parse_text_response. by rewrite Hspan. Qed.

Lemma parse_text_response_fallback env text :
  no_list_decoded env text ->
  parse_text_response env text
  = Ret (course_list (_extract_courses_from_text text)).
Proof.
  unfold no_list_decoded, parse_text_response.
  destruct (bracket_span text) as [json_content|]; [|reflexivity].
  intros (e & -> & He). cbn. by rewrite He.
Qed.

(** C3, as the code has it: on a 200 answer the span from the first
    opening bracket to the last closing bracket is decoded.  A list embedded
    in prose that has no opening bracket before it and no closing bracket
    after it is returned as decoded; when a bracket is missing, or the
    decoder refuses the span as malformed, the fallback parser's records
    are returned. *)
Theorem bracket_span_is_decoded (env : Env) (job_title resume_text : string)
    (log : NetLog) (key : string) (response : Response) (text : string) :
  gemini_api_key env = Some key ->
  truthy key = true ->
  requests_post env log (request_for key job_title resume_text) = Ret response ->
  status_code response = 200 ->
  text_of_response response = Ret (JStr text) ->
  (forall pre mid post courses,
      text = pre +:+ "[" +:+ mid +:+ "]" +:+ post ->
      PyStr.find "[" pre = -1 ->
      PyStr.rfind "]" post = -1 ->
      json_loads env ("[" +:+ mid +:+ "]") = Ret courses ->
      get_training_courses env job_title resume_text log
      = (Ret courses, log ++ [request_for key job_title resume_text]))
  /\ (PyStr.find "[" text = -1 \/ PyStr.rfind "]" text = -1 ->
      get_training_courses env job_title resume_text log
      = (Ret (course_list (_extract_courses_from_text text)),
         log ++ [request_for key job_title resume_text]))
  /\ (forall json_content e,
        bracket_span text = Some json_content ->
        json_loads env json_content = Raise e ->
        is_JSONDecodeError e = true ->
        get_training_courses env job_title resume_text log
        = (Ret (course_list (_extract_courses_from_text text)),
           log ++ [request_for key job_title resume_text])).
Proof.
  intros Hkey Htruthy Hpost Hstatus Htext.
  rewrite (get_training_courses_200 env job_title resume_text log key response text)
    by assumption.
  split; [|split].
  - intros pre mid post courses -> Hpre Hsuf Hloads.
    rewrite (parse_text_response_span env _ _ (bracket_span_embedded pre mid post Hpre Hsuf)).
    by rewrite Hloads.
  - intros Hnone. apply bracket_span_none in Hnone.
    rewrite parse_text_response_fallback; [reflexivity|].
    unfold no_list_decoded. by rewrite Hnone.
  - intros json_content e Hspan Hloads He.
    rewrite parse_text_response_fallback; [reflexivity|].
    unfold no_list_decoded. rewrite Hspan. by exists e.
Qed.

Lemma bracket_span_is_decoded_witness :
  get_training_courses
    (Demo.env (Ret Demo.features) (Ret [Demo.tie]) (Some "k")
       (Ret (Demo.answer ("Here are courses: " +:+ "[" +:+ Demo.inner_list +:+ "]"
                          +:+ " Thanks"))))
    "Data Scientist" "Python developer" []
  = (Ret (JArr [JObj [("course_name", JStr "X")]]),
     [request_for "k" "Data Scientist" "Python developer"]).
Proof.
  exact (proj1 (bracket_span_is_decoded
                  (Demo.env (Ret Demo.features) (Ret [Demo.tie]) (Some "k")
                     (Ret (Demo.answer ("Here are courses: " +:+ "["
                                        +:+ Demo.inner_list +:+ "]" +:+ " Thanks"))))
                  "Data Scientist" "Python developer" [] "k" _ _
                  eq_refl eq_refl eq_refl eq_refl eq_refl)
               "Here are courses: " Demo.inner_list " Thanks" _
               eq_refl eq_refl eq_refl eq_refl).
Defined.

(** C3 as stated fails: the list is well formed and is the first bracketed
    span of the text, but a closing bracket in the prose after it makes
    the span run to that bracket; the decoder refuses it and the fallback
    parser returns no record. *)
Lemma embedded_list_before_bracket_is_lost :
  JsonRef.loads Demo.embedded_list = Ret (JArr [JObj [("course_name", JStr "X")]])
  /\ fst (get_training_courses
            (Demo.env (Ret Demo.features) (Ret [Demo.tie]) (Some "k")
               (Ret (Demo.answer ("Here are courses: " +:+ Demo.embedded_list
                                  +:+ " Thanks [end]"))))
            "Data Scientist" "Python developer" [])
     = Ret (JArr [])
  /\ fst (get_training_courses
            (Demo.env (Ret Demo.features) (Ret [Demo.tie]) (Some "k")
               (Ret (Demo.answer ("Here are courses: " +:+ Demo.embedded_list
                                  +:+ " Thanks [end]"))))
            "Data Scientist" "Python developer" [])
     <> Ret (JArr [JObj [("course_name", JStr "X")]]).
Proof.
  split; [vm_compute; reflexivity|].
  assert (Hrun : fst (get_training_courses
            (Demo.env (Ret Demo.features) (Ret [Demo.tie]) (Some "k")
               (Ret (Demo.answer ("Here are courses: " +:+ Demo.embedded_list
                                  +:+ " Thanks [end]"))))
            "Data Scientist" "Python developer" []) = Ret (JArr []))
    by (vm_compute; reflexivity).
  split; [exact Hrun|]. rewrite Hrun. discriminate.
Qed.

(** C9: a text with no enumerated line gives no record; so a 200 answer
    whose text gives no decoded list and has no enumerated line makes
    [get_training_courses] return the empty list, after its one request. *)
Theorem fallback_can_return_nothing :
  (forall text, no_enumerated_line text -> _extract_courses_from_text text = [])
  /\ (forall env job_title resume_text log key response text,
        gemini_api_key env = Some key ->
        truthy key = true ->
        requests_post env log (request_for key job_title resume_text)
        = Ret response ->
        status_code response = 200 ->
        text_of_response response = Ret (JStr text) ->
        no_list_decoded env text ->
        no_enumerated_line text ->
        get_training_courses env job_title resume_text log
        = (Ret (JArr []), log ++ [request_for key job_title resume_text])).
Proof.
  split; [exact extract_courses_plain|].
  intros env job_title resume_text log key response text
         Hkey Htruthy Hpost Hstatus Htext Hnolist Hplain.
  rewrite (get_training_courses_200 env job_title resume_text log key response text)
    by assumption.
  rewrite (parse_text_response_fallback env text Hnolist).
  by rewrite (extract_courses_plain text Hplain).
Qed.

Lemma no_enumerated_line_demo :
  no_enumerated_line "I could not find any course."
  /\ no_enumerated_line "Sorry." .
Proof.
  split; intros line Hin; cbn in Hin;
    apply list_elem_of_singleton in Hin as ->; reflexivity.
Defined.

Lemma fallback_can_return_nothing_witness :
  _extract_courses_from_text "I could not find any course." = []
  /\ get_training_courses
       (Demo.env (Ret Demo.features) (Ret [Demo.tie]) (Some "k")
          (Ret (Demo.answer "Sorry.")))
       "Data Scientist" "Python developer" []
     = (Ret (JArr []), [request_for "k" "Data Scientist" "Python developer"]).
Proof.
  split.
  - exact (proj1 fallback_can_return_nothing _ (proj1 no_enumerated_line_demo)).
  - exact (proj2 fallback_can_return_nothing
             (Demo.env (Ret Demo.features) (Ret [Demo.tie]) (Some "k")
                (Ret (Demo.answer "Sorry.")))
             "Data Scientist" "Python developer" [] "k" _ "Sorry."
             eq_refl eq_refl eq_refl eq_refl eq_refl I
             (proj2 no_enumerated_line_demo)).
Defined.

(** ** 4.6 The pipeline *)

Lemma pipeline_body_extract_raises env file_path log e :
  extract_text_from_resume env file_path = Raise e ->
  pipeline_body env file_path log = (Raise e, log).
Proof. intros He. unfold pipeline_body. run_net. by rewrite He. Qed.

Lemma enrich_job_returns env resume_text job log :
  exists courses log',
    get_training_courses env (job_title job) resume_text log = (Ret courses, log')
    /\ enrich_job env resume_text job log
       = (Ret {| result_job_title := job_title job;
                 result_confidence := confidence job;
                 training_courses := courses |}, log').
Proof.
  destruct (get_training_courses_returns env (job_title job) resume_text log)
    as (courses & log' & Hc).
  exists courses, log'. split; [exact Hc|].
  unfold enrich_job. run_net. by rewrite Hc.
Qed.

Lemma net_mapM_enrich_returns env resume_text jobs :
  forall log, exists results log',
    Net.mapM (enrich_job env resume_text) jobs log = (Ret results, log').
Proof.
  induction jobs as [|job jobs IH]; intros log; cbn.
  - by eexists _, _.
  - destruct (enrich_job_returns env resume_text job log)
      as (courses & log1 & _ & Hjob).
    destruct (IH log1) as (results & log2 & Hrest).
    unfold Net.bind at 1. rewrite Hjob.
    unfold Net.bind. rewrite Hrest. by eexists _, _.
Qed.

(** Only extraction can make the body of the [try] raise. *)
Lemma pipeline_body_outcome env file_path log :
  (exists e, extract_text_from_resume env file_path = Raise e
             /\ pipeline_body env file_path log = (Raise e, log))
  \/ (exists resume_text results log',
         extract_text_from_resume env file_path = Ret resume_text
         /\ pipeline_body env file_path log = (Ret results, log')).
Proof.
  destruct (extract_text_from_resume env file_path) as [resume_text|e] eqn:Hex.
  - right. exists resume_text.
    destruct (get_top_job_recommendations_returns env resume_text 3) as [jobs Hjobs].
    destruct (net_mapM_enrich_returns env resume_text jobs log)
      as (results & log' & Hres).
    exists results, log'. split; [reflexivity|].
    unfold pipeline_body. run_net. by rewrite Hex, Hjobs.
  - left. exists e. split; [reflexivity|].
    by apply pipeline_body_extract_raises.
Qed.

Lemma process_resume_file_of_body env file_path log :
  process_resume_file env file_path log
  = match pipeline_body env file_path log with
    | (Ret results, log') => (Ret (Recommendations results), log')
    | (Raise e, log') => (Ret (Error (exn_str e)), log')
    end.
Proof.
  unfold process_resume_file. run_net.
  by destruct (pipeline_body env file_path log) as [[results|e] log'].
Qed.

(** C1, as the code has it: [process_resume_file] raises nothing and
    returns one of the two shapes.  An exception that extraction raises is
    caught at the top level and gives the error shape with its message, as
    for a path that does not exist.  Once extraction has returned, the
    result has the recommendations shape whatever the vectorizer, the model
    and the requests do: their exceptions are caught inside the steps. *)
Theorem process_resume_file_never_raises (env : Env) (file_path : string)
    (log : NetLog) :
  (exists result log',
      process_resume_file env file_path log = (Ret result, log')
      /\ ((exists results, result = Recommendations results)
          \/ (exists message, result = Error message)))
  /\ (forall e,
        extract_text_from_resume env file_path = Raise e ->
        process_resume_file env file_path log = (Ret (Error (exn_str e)), log))
  /\ (path_exists env file_path = false ->
      process_resume_file env file_path log
      = (Ret (Error ("Resume file not found: " +:+ file_path)), log))
  /\ (forall resume_text,
        extract_text_from_resume env file_path = Ret resume_text ->
        exists results log',
          process_resume_file env file_path log
          = (Ret (Recommendations results), log'))
  /\ (forall message log',
        process_resume_file env file_path log = (Ret (Error message), log') ->
        exists e, extract_text_from_resume env file_path = Raise e
                  /\ exn_str e = message).
Proof.
  rewrite process_resume_file_of_body.
  split; [|split; [|split; [|split]]].
  - destruct (pipeline_body env file_path log) as [[results|e] log'];
      eexists _, _; (split; [reflexivity|]); [left | right]; by eexists.
  - intros e He. by rewrite (pipeline_body_extract_raises env file_path log e He).
  - intros Hex.
    rewrite (pipeline_body_extract_raises env file_path log
               (Exn FileNotFoundError ("Resume file not found: " +:+ file_path))).
    + reflexivity.
    + apply extract_raises. by constructor.
  - intros resume_text Hex.
    destruct (pipeline_body_outcome env file_path log)
      as [(e & He & _) | (text & results & log' & _ & ->)]; [congruence|].
    by exists results, log'.
  - intros message log' Hrun.
    destruct (pipeline_body_outcome env file_path log)
      as [(e & He & Hbody) | (text & results & log'' & _ & Hbody)];
      rewrite Hbody in Hrun; [|discriminate].
    injection Hrun as <- _. by exists e.
Qed.

Lemma process_resume_file_never_raises_witness :
  process_resume_file
    (Demo.env (Ret Demo.features) (Ret [Demo.tie]) None (Ret (Demo.answer "")))
    "missing.pdf" []
  = (Ret (Error "Resume file not found: missing.pdf"), []).
Proof.
  exact (proj1 (proj2 (proj2
           (process_resume_file_never_raises
              (Demo.env (Ret Demo.features) (Ret [Demo.tie]) None
                        (Ret (Demo.answer "")))
              "missing.pdf" []))) eq_refl).
Defined.

(** C1 as stated fails: the vectorizer, the model and the request all
    raise, and the call returns the recommendations shape, not the error
    shape. *)
Lemma failures_after_extraction_give_recommendations :
  vectorizer_transform
    (Demo.env (Raise Demo.not_fitted) (Raise Demo.predict_failed) (Some "k")
              (Raise Cases.timed_out))
    ("Python developer" +:+ PyStr.nl)
  = Raise Demo.not_fitted
  /\ model_predict
       (Demo.env (Raise Demo.not_fitted) (Raise Demo.predict_failed) (Some "k")
                 (Raise Cases.timed_out))
       [[0%Q; 0%Q; 0%Q]]
     = Raise Demo.predict_failed
  /\ requests_post
       (Demo.env (Raise Demo.not_fitted) (Raise Demo.predict_failed) (Some "k")
                 (Raise Cases.timed_out))
       []
       (request_for "k" "Error in prediction" ("Python developer" +:+ PyStr.nl))
     = Raise Cases.timed_out
  /\ process_resume_file
       (Demo.env (Raise Demo.not_fitted) (Raise Demo.predict_failed) (Some "k")
                 (Raise Cases.timed_out))
       "cv.PDF" []
     = (Ret (Recommendations
               [{| result_job_title := "Error in prediction";
                   result_confidence := 0;
                   training_courses :=
                     course_list [api_exception Cases.timed_out] |}]),
        [request_for "k" "Error in prediction" ("Python developer" +:+ PyStr.nl)])
  /\ (forall message,
        fst (process_resume_file
               (Demo.env (Raise Demo.not_fitted) (Raise Demo.predict_failed)
                         (Some "k") (Raise Cases.timed_out))
               "cv.PDF" [])
        <> Ret (Error message)).
Proof.
  split; [reflexivity|]. split; [reflexivity|]. split; [reflexivity|].
  assert (Hrun : process_resume_file
       (Demo.env (Raise Demo.not_fitted) (Raise Demo.predict_failed) (Some "k")
                 (Raise Cases.timed_out))
       "cv.PDF" []
     = (Ret (Recommendations
               [{| result_job_title := "Error in prediction";
                   result_confidence := 0;
                   training_courses :=
                     course_list [api_exception Cases.timed_out] |}]),
        [request_for "k" "Error in prediction" ("Python developer" +:+ PyStr.nl)]))
    by (vm_compute; reflexivity).
  split; [exact Hrun|]. intros message. rewrite Hrun. discriminate.
Qed.

(** C10: when the prediction raises, [get_top_job_recommendations] returns
    the one entry Error in prediction with confidence 0, and the pipeline
    goes on to ask for courses for that title. *)
Theorem prediction_failure_is_recommended (env : Env) (resume_text : string)
    (top_n : Z) (features : list (list Q)) (e : exn) :
  preprocess_resume env resume_text = Ret features ->
  model_predict env features = Raise e ->
  get_top_job_recommendations env resume_text top_n
  = Ret [{| job_title := "Error in prediction"; confidence := 0 |}]
  /\ forall file_path log,
       extract_text_from_resume env file_path = Ret resume_text ->
       exists courses log',
         get_training_courses env "Error in prediction" resume_text log
         = (Ret courses, log')
         /\ process_resume_file env file_path log
            = (Ret (Recommendations
                      [{| result_job_title := "Error in prediction";
                          result_confidence := 0;
                          training_courses := courses |}]),
               log').
Proof.
  intros Hpre Hpredict.
  pose proof (get_top_job_recommendations_predict_raises
                env resume_text 3 features e Hpre Hpredict) as Htop3.
  split.
  - by apply (get_top_job_recommendations_predict_raises
                env resume_text top_n features e).
  - intros file_path log Hex.
    destruct (get_training_courses_returns env "Error in prediction" resume_text log)
      as (courses & log' & Hc).
    exists courses, log'. split; [exact Hc|].
    rewrite process_resume_file_of_body. unfold pipeline_body. run_net.
    rewrite Hex, Htop3. unfold prediction_error. cbn [Net.mapM].
    unfold enrich_job. run_net. cbn [job_title confidence]. by rewrite Hc.
Qed.

Lemma prediction_failure_is_recommended_witness :
  get_top_job_recommendations
    (Demo.env (Ret Demo.features) (Raise Demo.predict_failed) (Some "k")
       (Ret (Demo.answer "Sorry.")))
    "Python developer" 3
  = Ret [{| job_title := "Error in prediction"; confidence := 0 |}].
Proof.
  exact (proj1 (prediction_failure_is_recommended
                  (Demo.env (Ret Demo.features) (Raise Demo.predict_failed)
                     (Some "k") (Ret (Demo.answer "Sorry.")))
                  "Python developer" 3 Demo.features Demo.predict_failed
                  eq_refl eq_refl)).
Defined.

(** * Further properties *)

(** ** The fallback parser: segmentation *)

Section Segmentation.

(** The sections a loop state stands for once the loop ends (lines 272-273). *)
Let sections_of (st : list string * string) : list string :=
  if truthy (snd st) then fst st ++ [snd st] else fst st.

Lemma truthy_app s t : truthy s = true -> truthy (s +:+ t) = true.
Proof. by destruct s. Qed.

Lemma is_enumerated_truthy line : is_enumerated line = true -> truthy line = true.
Proof.
  destruct line as [|c line]; [|reflexivity].
  vm_compute. discriminate.
Qed.

Lemma split_sections_fold text :
  split_sections text
  = sections_of (fold_left section_step (PyStr.split PyStr.newline text) ([], "")).
Proof.
  unfold split_sections, sections_of.
  by destruct (fold_left _ _ _) as [sections current].
Qed.

Lemma sections_of_step_length st line :
  length (sections_of (section_step st line))
  = (length (sections_of st) + (if is_enumerated line then 1 else 0))%nat.
Proof.
  destruct st as [sections current]. unfold section_step, sections_of.
  fold (is_enumerated line).
  destruct (is_enumerated line) eqn:Hline; cbn [fst snd].
  - rewrite (is_enumerated_truthy line Hline).
    destruct (truthy current); rewrite ?List.length_app; cbn; lia.
  - destruct (truthy current) eqn:Hcur; cbn [fst snd].
    + rewrite (truthy_app current _ Hcur), !List.length_app. cbn. lia.
    + rewrite Hcur. lia.
Qed.

Lemma sections_of_fold_length lines :
  forall st,
    length (sections_of (fold_left section_step lines st))
    = (length (sections_of st) + count_enumerated lines)%nat.
Proof.
  induction lines as [|line lines IH]; intros st; cbn [fold_left count_enumerated].
  - lia.
  - rewrite IH, sections_of_step_length. lia.
Qed.

(** Leading lines that are not enumerated leave the loop where it started. *)
Lemma fold_from_first_enumerated lines :
  fold_left section_step lines ([], "")
  = fold_left section_step (from_first_enumerated lines) ([], "").
Proof.
  induction lines as [|line lines IH]; [reflexivity|].
  cbn [from_first_enumerated]. destruct (is_enumerated line) eqn:Hline;
    [reflexivity|].
  cbn [fold_left]. unfold section_step at 2. fold (is_enumerated line).
  rewrite Hline. cbn [truthy]. exact IH.
Qed.

(** What the lines after the first add to the joined text. *)
Let tail_of (lines : list string) : string :=
  foldr (fun line acc => PyStr.nl +:+ line +:+ acc) "" lines.

Lemma concat_cons sep a l :
  l <> [] -> String.concat sep (a :: l) = a +:+ sep +:+ String.concat sep l.
Proof. by destruct l. Qed.

Lemma app_empty_r s : s +:+ "" = s.
Proof.
  induction s as [|c s IH]; rewrite ?app_nil_l, ?app_cons; [done | by rewrite IH].
Qed.

Lemma concat_snoc sep S x :
  S <> [] -> String.concat sep (S ++ [x]) = String.concat sep S +:+ sep +:+ x.
Proof.
  induction S as [|a S IH]; [done|]. intros _.
  destruct S as [|b S]; [reflexivity|].
  change ((a :: b :: S) ++ [x]) with (a :: ((b :: S) ++ [x])).
  rewrite concat_cons by (by destruct S).
  rewrite IH by done. rewrite (concat_cons sep a (b :: S)) by done.
  by rewrite !app_assoc.
Qed.

Lemma concat_snoc_app sep S c t :
  String.concat sep (S ++ [c +:+ t]) = String.concat sep (S ++ [c]) +:+ t.
Proof.
  induction S as [|a S IH]; [reflexivity|].
  change ((a :: S) ++ [?x]) with (a :: (S ++ [x])).
  rewrite !concat_cons by (by destruct S).
  by rewrite IH, !app_assoc.
Qed.

Lemma concat_tail_of line lines :
  String.concat PyStr.nl (line :: lines) = line +:+ tail_of lines.
Proof.
  revert line. induction lines as [|l lines IH]; intros line; cbn [tail_of foldr].
  - by rewrite app_empty_r.
  - rewrite concat_cons by done. by rewrite IH.
Qed.

Lemma sections_of_step_join st line :
  truthy (snd st) = true ->
  truthy (snd (section_step st line)) = true
  /\ String.concat PyStr.nl (sections_of (section_step st line))
     = String.concat PyStr.nl (sections_of st) +:+ PyStr.nl +:+ line.
Proof.
  destruct st as [sections current]. cbn [snd]. intros Hcur.
  unfold section_step, sections_of. fold (is_enumerated line).
  destruct (is_enumerated line) eqn:Hline; rewrite ?Hcur; cbn [fst snd];
    rewrite ?Hcur.
  - rewrite (is_enumerated_truthy line Hline). split; [done|].
    apply concat_snoc. by destruct sections.
  - rewrite (truthy_app current _ Hcur). split; [done|].
    apply concat_snoc_app.
Qed.

Lemma sections_of_fold_join lines :
  forall st,
    truthy (snd st) = true ->
    String.concat PyStr.nl (sections_of (fold_left section_step lines st))
    = String.concat PyStr.nl (sections_of st) +:+ tail_of lines.
Proof.
  induction lines as [|line lines IH]; intros st Hcur; cbn [fold_left tail_of foldr].
  - by rewrite app_empty_r.
  - destruct (sections_of_step_join st line Hcur) as [Hcur' Hjoin].
    rewrite (IH _ Hcur'), Hjoin. by rewrite !app_assoc.
Qed.

Lemma from_first_enumerated_head lines :
  match from_first_enumerated lines with
  | [] => True
  | line :: _ => is_enumerated line = true
  end.
Proof.
  induction lines as [|line lines IH]; cbn [from_first_enumerated]; [done|].
  by destruct (is_enumerated line) eqn:Hline.
Qed.

Lemma sections_join lines :
  String.concat PyStr.nl (sections_of (fold_left section_step lines ([], "")))
  = String.concat PyStr.nl (from_first_enumerated lines).
Proof.
  rewrite fold_from_first_enumerated.
  pose proof (from_first_enumerated_head lines) as Hhead.
  destruct (from_first_enumerated lines) as [|line rest]; [reflexivity|].
  cbn [fold_left]. unfold section_step at 2. fold (is_enumerated line).
  rewrite Hhead. cbn [truthy].
  rewrite sections_of_fold_join by (by apply is_enumerated_truthy).
  unfold sections_of at 1. cbn [fst snd].
  rewrite (is_enumerated_truthy line Hhead), concat_tail_of. reflexivity.
Qed.

End Segmentation.

Lemma split_nonempty sep s : PyStr.split sep s <> [].
Proof.
  destruct s as [|c s]; cbn; [done|].
  destruct (Ascii.eqb c sep); [done|]. by destruct (PyStr.split sep s).
Qed.

(** Splitting distributes over a separator between two texts. *)
Lemma split_app sep a b :
  PyStr.split sep (a +:+ String sep b) = PyStr.split sep a ++ PyStr.split sep b.
Proof.
  induction a as [|c a IH]; rewrite ?app_nil_l, ?app_cons; cbn [PyStr.split].
  - by rewrite Ascii.eqb_refl.
  - destruct (Ascii.eqb c sep); [by rewrite IH|].
    rewrite IH. pose proof (split_nonempty sep a).
    by destruct (PyStr.split sep a).
Qed.

Lemma from_first_enumerated_app pre rest :
  (forall line, line ∈ pre -> is_enumerated line = false) ->
  from_first_enumerated (pre ++ rest) = from_first_enumerated rest.
Proof.
  induction pre as [|line pre IH]; intros Hpre; [reflexivity|].
  cbn [app from_first_enumerated]. rewrite (Hpre line) by (by left). apply IH.
  intros l Hl. apply Hpre. by right.
Qed.

(** X1: the parser opens one section per enumerated line, and returns
    three records or one per enumerated line, whichever is less. *)
Theorem sections_match_enumerated_lines (text : string) :
  length (split_sections text)
  = count_enumerated (PyStr.split PyStr.newline text)
  /\ length (_extract_courses_from_text text)
     = Nat.min 3 (count_enumerated (PyStr.split PyStr.newline text)).
Proof.
  assert (Hlen : length (split_sections text)
                 = count_enumerated (PyStr.split PyStr.newline text)).
  { rewrite split_sections_fold, sections_of_fold_length. reflexivity. }
  split; [exact Hlen|].
  unfold _extract_courses_from_text.
  rewrite length_take, length_fmap, Hlen. reflexivity.
Qed.

(** X2: the sections, joined by newlines again, are the text from its
    first enumerated line on: inside that part no character is lost or
    added, and what stands before it is dropped. *)
Theorem sections_rejoin (text : string) :
  PyStr.join PyStr.nl (split_sections text)
  = PyStr.join PyStr.nl
      (from_first_enumerated (PyStr.split PyStr.newline text)).
Proof.
  unfold PyStr.join. rewrite split_sections_fold. apply sections_join.
Qed.

(** X3: lines in front of the first enumerated line have no effect on
    the result. *)
Theorem preamble_is_ignored (preamble rest : string) :
  (forall line, line ∈ PyStr.split PyStr.newline preamble ->
                is_enumerated line = false) ->
  _extract_courses_from_text (preamble +:+ PyStr.nl +:+ rest)
  = _extract_courses_from_text rest.
Proof.
  intros Hpre. unfold _extract_courses_from_text. do 2 f_equal.
  rewrite !split_sections_fold.
  rewrite fold_from_first_enumerated, (fold_from_first_enumerated (PyStr.split _ rest)).
  unfold PyStr.nl. rewrite app_cons, app_nil_l, split_app.
  by rewrite (from_first_enumerated_app _ _ Hpre).
Qed.

Lemma preamble_is_ignored_witness :
  _extract_courses_from_text
    ("Here are my suggestions:" +:+ PyStr.nl +:+ Demo.sample_text)
  = _extract_courses_from_text Demo.sample_text.
Proof.
  apply (preamble_is_ignored "Here are my suggestions:" Demo.sample_text).
  intros line Hin. cbn in Hin. apply list_elem_of_singleton in Hin as ->.
  reflexivity.
Defined.

(** ** The fallback parser: fields *)

Section Fields.

Import PyStr.

Lemma find_absent_cons c d s :
  find c (String d s) = -1 <-> Ascii.eqb d c = false /\ find c s = -1.
Proof.
  cbn [find]. pose proof (find_lower_bound c s).
  destruct (Ascii.eqb d c); [split; [discriminate | by intros []]|].
  destruct (Z.ltb_spec (find c s) 0); split; intros; try split; try done; lia.
Qed.

Lemma find_absent_lstrip c s : find c s = -1 -> find c (lstrip s) = -1.
Proof.
  induction s as [|d s IH]; [done|]. intros Hs. cbn [lstrip].
  destruct (is_space d); [|exact Hs].
  apply IH. by apply find_absent_cons in Hs as [_ Hs].
Qed.

Lemma find_absent_rstrip c s : find c s = -1 -> find c (rstrip s) = -1.
Proof.
  induction s as [|d s IH]; [done|]. intros Hs.
  apply find_absent_cons in Hs as [Hd Hs]. specialize (IH Hs). cbn [rstrip].
  destruct (rstrip s) as [|e r].
  - destruct (is_space d); [done|]. by apply find_absent_cons.
  - by apply find_absent_cons.
Qed.

Lemma find_absent_strip c s : find c s = -1 -> find c (strip s) = -1.
Proof. intros Hs. by apply find_absent_rstrip, find_absent_lstrip. Qed.

Lemma find_absent_split c sep s :
  find c s = -1 -> Forall (fun line => find c line = -1) (split sep s).
Proof.
  induction s as [|d s IH]; intros Hs; cbn [split].
  - by constructor.
  - apply find_absent_cons in Hs as [Hd Hs]. specialize (IH Hs).
    destruct (Ascii.eqb d sep); [by constructor|].
    destruct (split sep s) as [|w ws]; [by constructor; [apply find_absent_cons|]|].
    apply Forall_cons in IH as [Hw Hws].
    constructor; [by apply find_absent_cons | exact Hws].
Qed.

(** Without a separator [split(sep, 1)] gives the one part. *)
Lemma split1_absent sep s : find sep s = -1 -> split1 sep s = [s].
Proof.
  induction s as [|d s IH]; [done|]. intros Hs.
  apply find_absent_cons in Hs as [Hd Hs]. cbn [split1].
  by rewrite Hd, (IH Hs).
Qed.

Lemma assign_after_colon_absent set line course :
  find ":" line = -1 -> assign_after_colon set line course = course.
Proof. intros Hs. unfold assign_after_colon. by rewrite split1_absent. Qed.

Lemma field_step_absent course line :
  find ":" line = -1 -> field_step course line = course.
Proof.
  intros Hs. apply (find_absent_strip ":") in Hs. unfold field_step.
  rewrite !(assign_after_colon_absent _ _ _ Hs).
  by repeat destruct (_ || _); repeat destruct (contains _ _).
Qed.

End Fields.

(** X4: a section without a colon keeps the placeholders, whatever words
    it holds, and its whole text as description. *)
Theorem section_without_colon (section : string) :
  PyStr.find ":" section = -1 ->
  course_of_section section
  = Course "Unknown Course" "Unknown Provider" section "" "".
Proof.
  intros Hs. unfold course_of_section.
  pose proof (find_absent_split ":" PyStr.newline section Hs) as Hlines.
  generalize (Course "Unknown Course" "Unknown Provider" section "" "").
  induction Hlines as [|line lines Hline _ IH]; intros course; [reflexivity|].
  cbn [fold_left]. rewrite (field_step_absent course line Hline). apply IH.
Qed.

Lemma section_without_colon_witness :
  course_of_section ("1. Course name is Python" +:+ PyStr.nl +:+ "Provider Udemy")
  = Course "Unknown Course" "Unknown Provider"
           ("1. Course name is Python" +:+ PyStr.nl +:+ "Provider Udemy") "" "".
Proof.
  exact (section_without_colon
           ("1. Course name is Python" +:+ PyStr.nl +:+ "Provider Udemy") eq_refl).
Defined.

(** ** Ranking: what is selected *)

Section Selection.

Import Argsort.

Lemma pairwise_distinct_NoDup (idxs : list nat) :
  pairwise (fun i j => negb (i =? j)%nat) idxs = true -> NoDup idxs.
Proof.
  rewrite pairwise_sorted.
  induction 1 as [|i idxs _ IH Hi]; constructor; [|exact IH].
  intros Hin. rewrite Forall_forall in Hi. specialize (Hi i Hin).
  by rewrite Nat.eqb_refl in Hi.
Qed.

(** The contract of one call, as a permutation of the indices. *)
Lemma is_index_permutation_seq scores idxs :
  is_index_permutation scores idxs = true ->
  NoDup idxs /\ idxs ≡ₚ seq 0 (length scores).
Proof.
  unfold is_index_permutation. rewrite !andb_true_iff.
  intros [[Hlen Hrange] Hdistinct].
  apply Nat.eqb_eq in Hlen. apply pairwise_distinct_NoDup in Hdistinct.
  split; [exact Hdistinct|].
  apply submseteq_length_Permutation; [|by rewrite length_seq, Hlen].
  apply NoDup_submseteq; [exact Hdistinct|].
  intros i Hi. rewrite forallb_forall in Hrange.
  apply list_elem_of_In, Hrange, Nat.ltb_lt in Hi. apply elem_of_seq. lia.
Qed.

Lemma top_indices_elem env scores top_n i :
  i ∈ top_indices env scores top_n -> i ∈ np_argsort env scores.
Proof.
  destruct (top_indices_reversed_suffix env scores top_n) as [k ->].
  rewrite elem_of_reverse. intros Hi.
  rewrite <- (take_drop k (np_argsort env scores)). apply elem_of_app. by right.
Qed.

Lemma top_indices_NoDup env scores top_n :
  NoDup (np_argsort env scores) -> NoDup (top_indices env scores top_n).
Proof.
  destruct (top_indices_reversed_suffix env scores top_n) as [k ->].
  intros Hnd. rewrite reverse_Permutation.
  rewrite <- (take_drop k (np_argsort env scores)) in Hnd.
  by apply NoDup_app in Hnd as (_ & _ & Hdrop).
Qed.

Lemma unselected_not_above env scores top_n i j :
  StronglySorted
    (fun a b => Qle_bool (score_at scores a) (score_at scores b) = true)
    (np_argsort env scores) ->
  i ∈ top_indices env scores top_n ->
  j ∈ np_argsort env scores ->
  j ∉ top_indices env scores top_n ->
  (score_at scores j <= score_at scores i)%Q.
Proof.
  destruct (top_indices_reversed_suffix env scores top_n) as [k ->].
  rewrite !elem_of_reverse. intros Hs Hi Hj Hnot.
  rewrite <- (take_drop k (np_argsort env scores)) in Hs, Hj.
  apply elem_of_app in Hj as [Hj | Hj]; [|done].
  apply Qle_bool_iff.
  by apply (StronglySorted_app_1_elem_of _ _ _ j i Hs).
Qed.

End Selection.

(** X5: the selected indices are distinct categories of the score vector,
    and no category left out scores higher than a selected one. *)
Theorem selection_is_top (env : Env) (scores : list Q) (top_n : Z) :
  Argsort.is_argsort scores (np_argsort env scores) = true ->
  NoDup (top_indices env scores top_n)
  /\ Forall (fun i => (i < length scores)%nat) (top_indices env scores top_n)
  /\ forall i j,
       i ∈ top_indices env scores top_n ->
       (j < length scores)%nat ->
       j ∉ top_indices env scores top_n ->
       (Argsort.score_at scores j <= Argsort.score_at scores i)%Q.
Proof.
  unfold Argsort.is_argsort. rewrite andb_true_iff, pairwise_sorted.
  intros [Hperm Hsorted].
  destruct (is_index_permutation_seq scores _ Hperm) as [Hnd Hseq].
  split; [by apply top_indices_NoDup|].
  split; [by apply top_indices_in_range|].
  intros i j Hi Hj Hnot.
  apply (unselected_not_above env scores top_n i j Hsorted Hi); [|exact Hnot].
  rewrite Hseq. apply elem_of_seq. lia.
Qed.

Lemma selection_is_top_witness :
  NoDup (top_indices
           (Demo.env (Ret Demo.features) (Ret [Demo.tie]) None (Ret (Demo.answer "")))
           [(1 # 5)%Q; (4 # 5)%Q; (3 # 5)%Q] 3).
Proof.
  exact (proj1 (selection_is_top
                  (Demo.env (Ret Demo.features) (Ret [Demo.tie]) None
                            (Ret (Demo.answer "")))
                  [(1 # 5)%Q; (4 # 5)%Q; (3 # 5)%Q] 3 eq_refl)).
Defined.

(** X6: for a positive [top_n] and a mapping that is not empty, [rank]
    returns as many recommendations as the least of [top_n], the size of
    the mapping and the number of scores. *)
Theorem rank_count (env : Env) (scores : list Q) (top_n : Z) :
  Argsort.is_argsort scores (np_argsort env scores) = true ->
  1 <= top_n ->
  (1 <= size (job_titles env))%nat ->
  exists recs,
    rank env scores top_n = Ret recs
    /\ Z.of_nat (length recs)
       = Z.min (Z.min top_n (Z.of_nat (size (job_titles env))))
               (Z.of_nat (length scores)).
Proof.
  intros Hsort Hn Hsize.
  destruct (rank_length env scores top_n Hsort) as (recs & Hrecs & Hlen).
  exists recs. split; [exact Hrecs|]. rewrite Hlen.
  unfold Argsort.is_argsort, Argsort.is_index_permutation in Hsort.
  rewrite !andb_true_iff in Hsort. destruct Hsort as [[[Hl _] _] _].
  apply Nat.eqb_eq in Hl.
  unfold top_indices. rewrite length_reverse, slice_from_length, Hl.
  destruct (Z.ltb_spec (- Z.min top_n (Z.of_nat (size (job_titles env)))) 0); lia.
Qed.

Lemma rank_count_witness :
  exists recs,
    rank (Demo.env (Ret Demo.features) (Ret [Demo.tie]) None (Ret (Demo.answer "")))
         [(1 # 5)%Q; (4 # 5)%Q; (3 # 5)%Q] 3 = Ret recs
    /\ Z.of_nat (length recs) = 2.
Proof.
  exact (rank_count
           (Demo.env (Ret Demo.features) (Ret [Demo.tie]) None (Ret (Demo.answer "")))
           [(1 # 5)%Q; (4 # 5)%Q; (3 # 5)%Q] 3 eq_refl ltac:(lia) ltac:(vm_compute; lia)).
Defined.

(** ** Prediction: failures inside [get_top_job_recommendations] *)

(** X7: when the vectorizer fails, the model is asked about the zero
    vector, so two resumes on which it fails get the same recommendations. *)
Theorem encoder_failure_forgets_resume (env : Env) (text1 text2 : string)
    (e1 e2 : exn) (top_n : Z) :
  vectorizer_transform env text1 = Raise e1 ->
  vectorizer_transform env text2 = Raise e2 ->
  get_top_job_recommendations env text1 top_n
  = get_top_job_recommendations env text2 top_n
  /\ get_top_job_recommendations env text1 top_n
     = Outcome.try_except
         (predictions ← model_predict env [replicate (model_input_dim env) 0%Q];
          scores ← getitem predictions 0;
          rank env scores top_n)
         (fun _ => Ret prediction_error).
Proof.
  intros H1 H2. unfold get_top_job_recommendations, preprocess_resume.
  rewrite H1, H2. split; reflexivity.
Qed.

Lemma encoder_failure_forgets_resume_witness :
  get_top_job_recommendations
    (Demo.env (Raise Demo.not_fitted) (Ret [Demo.tie]) None (Ret (Demo.answer "")))
    "Python developer" 3
  = get_top_job_recommendations
      (Demo.env (Raise Demo.not_fitted) (Ret [Demo.tie]) None (Ret (Demo.answer "")))
      "Pastry chef" 3.
Proof.
  exact (proj1 (encoder_failure_forgets_resume
                  (Demo.env (Raise Demo.not_fitted) (Ret [Demo.tie]) None
                            (Ret (Demo.answer "")))
                  "Python developer" "Pastry chef" _ _ 3 eq_refl eq_refl)).
Defined.

(** X8: [get_top_job_recommendations] raises nothing: an empty prediction
    array, or a selected index that the score vector does not have, gives
    the entry Error in prediction like a failing prediction does. *)
Theorem prediction_errors_are_absorbed (env : Env) (resume_text : string)
    (top_n : Z) :
  (exists recs, get_top_job_recommendations env resume_text top_n = Ret recs)
  /\ (forall features,
        preprocess_resume env resume_text = Ret features ->
        model_predict env features = Ret [] ->
        get_top_job_recommendations env resume_text top_n = Ret prediction_error)
  /\ (forall features scores rest idx,
        preprocess_resume env resume_text = Ret features ->
        model_predict env features = Ret (scores :: rest) ->
        idx ∈ top_indices env scores top_n ->
        (length scores <= idx)%nat ->
        get_top_job_recommendations env resume_text top_n = Ret prediction_error).
Proof.
  split; [apply get_top_job_recommendations_returns|]. split.
  - intros features Hpre Hpredict. unfold get_top_job_recommendations.
    rewrite Hpre. run_outcome. by rewrite Hpredict.
  - intros features scores rest idx Hpre Hpredict Hin Hrange.
    unfold get_top_job_recommendations. rewrite Hpre. run_outcome.
    rewrite Hpredict. cbn [getitem lookup list_lookup].
    destruct (mapM_raises (recommendation_at env scores)
                (top_indices env scores top_n)) as [e He]; [|by unfold rank; rewrite He].
    exists idx. eexists. split; [exact Hin|].
    unfold recommendation_at, getitem.
    by rewrite (lookup_ge_None_2 scores idx Hrange).
Qed.

Lemma prediction_errors_are_absorbed_witness :
  get_top_job_recommendations
    (Demo.env (Ret Demo.features) (Ret []) None (Ret (Demo.answer "")))
    "Python developer" 3
  = Ret prediction_error.
Proof.
  exact (proj1 (proj2 (prediction_errors_are_absorbed
                         (Demo.env (Ret Demo.features) (Ret []) None
                                   (Ret (Demo.answer "")))
                         "Python developer" 3))
               Demo.features eq_refl eq_refl).
Defined.

(** ** Course enrichment: requests and sentinels *)

Section Enrichment.

Context (env : Env) (job_title resume_text key : string) (log : NetLog).
Context (Hkey : gemini_api_key env = Some key) (Htruthy : truthy key = true).

Lemma get_training_courses_with_key :
  get_training_courses env job_title resume_text log
  = Net.try_except (call_api env key job_title resume_text)
      (fun e => mret (course_list [api_exception e])) log.
Proof.
  unfold get_training_courses, key_missing. by rewrite Hkey, Htruthy.
Qed.

Lemma call_api_log :
  snd (call_api env key job_title resume_text log)
  = log ++ [request_for key job_title resume_text].
Proof.
  unfold call_api. run_net.
  destruct (requests_post env log _) as [response|]; [|reflexivity].
  by destruct (status_code response =? 200).
Qed.

Lemma get_training_courses_one_request :
  exists courses,
    get_training_courses env job_title resume_text log
    = (Ret courses, log ++ [request_for key job_title resume_text]).
Proof.
  rewrite get_training_courses_with_key. pose proof call_api_log as Hlog.
  run_net. destruct (call_api env key job_title resume_text log) as [[c|e] log'];
    cbn [snd] in Hlog; subst log'; by eexists.
Qed.

Lemma get_training_courses_post_raises e :
  requests_post env log (request_for key job_title resume_text) = Raise e ->
  get_training_courses env job_title resume_text log
  = (Ret (course_list [api_exception e]),
     log ++ [request_for key job_title resume_text]).
Proof.
  intros Hpost. rewrite get_training_courses_with_key.
  unfold call_api. run_net. by rewrite Hpost.
Qed.

Lemma get_training_courses_bad_body response e :
  requests_post env log (request_for key job_title resume_text) = Ret response ->
  status_code response = 200 ->
  (text_value ← text_of_response response; PyVal.as_str text_value) = Raise e ->
  get_training_courses env job_title resume_text log
  = (Ret (course_list [api_exception e]),
     log ++ [request_for key job_title resume_text]).
Proof.
  intros Hpost Hstatus Htext. rewrite get_training_courses_with_key.
  unfold call_api. run_net. rewrite Hpost, Hstatus. cbn [Z.eqb Pos.eqb].
  run_outcome.
  destruct (text_of_response response) as [v|e']; [|by injection Htext as ->].
  by rewrite Htext.
Qed.

Lemma error_message_returns response :
  exists detail,
    error_message env response
    = Ret ("Error calling Gemini API: " +:+ pretty (status_code response)
           +:+ " - " +:+ detail).
Proof.
  unfold error_message. run_outcome.
  destruct (resp_json response) as [body|]; [|by eexists].
  destruct (PyVal.get body "error" (JObj [])) as [error|]; [|by eexists].
  destruct (PyVal.get error "message" (JStr "Unknown error")); by eexists.
Qed.

Lemma get_training_courses_not_200 response :
  requests_post env log (request_for key job_title resume_text) = Ret response ->
  status_code response <> 200 ->
  exists error_msg,
    error_message env response = Ret error_msg
    /\ get_training_courses env job_title resume_text log
       = (Ret (course_list [api_error error_msg]),
          log ++ [request_for key job_title resume_text]).
Proof.
  intros Hpost Hstatus. destruct (error_message_returns response) as [detail Hmsg].
  eexists. split; [exact Hmsg|].
  rewrite get_training_courses_with_key. unfold call_api. run_net.
  rewrite Hpost. apply Z.eqb_neq in Hstatus. rewrite Hstatus.
  run_outcome. by rewrite Hmsg.
Qed.

End Enrichment.

(** X9: with a key, one call of [get_training_courses] sends exactly one
    request, the one built from the key, the job title and the resume text,
    and returns a value whatever the answer is. *)
Theorem one_request_per_call (env : Env) (job_title resume_text key : string)
    (log : NetLog) :
  gemini_api_key env = Some key ->
  truthy key = true ->
  exists courses,
    get_training_courses env job_title resume_text log
    = (Ret courses, log ++ [request_for key job_title resume_text]).
Proof. apply get_training_courses_one_request. Qed.

Lemma one_request_per_call_witness :
  exists courses,
    get_training_courses
      (Demo.env (Ret Demo.features) (Ret [Demo.tie]) (Some "k")
                (Raise Cases.timed_out))
      "Data Scientist" "Python developer" []
    = (Ret courses, [request_for "k" "Data Scientist" "Python developer"]).
Proof.
  exact (one_request_per_call
           (Demo.env (Ret Demo.features) (Ret [Demo.tie]) (Some "k")
                     (Raise Cases.timed_out))
           "Data Scientist" "Python developer" "k" [] eq_refl eq_refl).
Defined.

(** X10: an answer with a status other than 200 gives the one record API
    Error, whose description is the status code followed by a detail: the
    message of the error object in the body when it has one, Unknown error
    when the body is an object without it, and the first 100 characters of
    the answer's text when the body cannot be read that way. *)
Theorem http_error_gives_api_error (env : Env) (job_title resume_text key : string)
    (log : NetLog) (response : Response) :
  gemini_api_key env = Some key ->
  truthy key = true ->
  requests_post env log (request_for key job_title resume_text) = Ret response ->
  status_code response <> 200 ->
  exists detail,
    get_training_courses env job_title resume_text log
    = (Ret (JArr [course_dict
                    (Course "API Error" "N/A"
                       ("Error calling Gemini API: "
                        +:+ pretty (status_code response) +:+ " - " +:+ detail)
                       "" "Please check your API key and network connection.")]),
       log ++ [request_for key job_title resume_text])
    /\ (forall items fields message,
          resp_json response = Ret (JObj items) ->
          PyVal.lookup "error" items = Some (JObj fields) ->
          PyVal.lookup "message" fields = Some (JStr message) ->
          detail = message)
    /\ (forall items,
          resp_json response = Ret (JObj items) ->
          PyVal.lookup "error" items = None ->
          detail = "Unknown error")
    /\ (forall e, resp_json response = Raise e ->
                  detail = PyStr.take 100 (resp_text response)).
Proof.
  intros Hkey Htruthy Hpost Hstatus.
  destruct (get_training_courses_not_200 env job_title resume_text key log
              Hkey Htruthy response Hpost Hstatus) as (error_msg & Hmsg & Hrun).
  unfold error_message in Hmsg. run_outcome.
  destruct (resp_json response) as [body|e] eqn:Hbody.
  - destruct (PyVal.get body "error" (JObj [])) as [error|e] eqn:Herror.
    + destruct (PyVal.get error "message" (JStr "Unknown error"))
        as [error_detail|e] eqn:Hdetail.
      * injection Hmsg as <-. exists (format_value env error_detail).
        split; [exact Hrun|]. split; [|split].
        -- intros items fields message [= ->] Hitems Hfields.
           cbn in Herror. rewrite Hitems in Herror. injection Herror as <-.
           cbn in Hdetail. rewrite Hfields in Hdetail. by injection Hdetail as <-.
        -- intros items [= ->] Hitems.
           cbn in Herror. rewrite Hitems in Herror. injection Herror as <-.
           cbn in Hdetail. by injection Hdetail as <-.
        -- discriminate.
      * injection Hmsg as <-. exists (PyStr.take 100 (resp_text response)).
        split; [exact Hrun|]. split; [|split].
        -- intros items fields message [= ->] Hitems Hfields.
           cbn in Herror. rewrite Hitems in Herror. injection Herror as <-.
           cbn in Hdetail. by rewrite Hfields in Hdetail.
        -- intros items [= ->] Hitems.
           cbn in Herror. rewrite Hitems in Herror. injection Herror as <-.
           cbn in Hdetail. discriminate.
        -- discriminate.
    + injection Hmsg as <-. exists (PyStr.take 100 (resp_text response)).
      split; [exact Hrun|]. split; [|split].
      * intros items fields message [= ->]. cbn in Herror. discriminate.
      * intros items [= ->]. cbn in Herror. discriminate.
      * discriminate.
  - injection Hmsg as <-. exists (PyStr.take 100 (resp_text response)).
    split; [exact Hrun|]. split; [|split]; try discriminate. reflexivity.
Qed.

Lemma http_error_gives_api_error_witness :
  exists detail,
    get_training_courses
      (Demo.env (Ret Demo.features) (Ret [Demo.tie]) (Some "k")
                (Ret Cases.quota_exceeded))
      "Data Scientist" "Python developer" []
    = (Ret (JArr [course_dict
                    (Course "API Error" "N/A"
                       ("Error calling Gemini API: 429 - " +:+ detail)
                       "" "Please check your API key and network connection.")]),
       [request_for "k" "Data Scientist" "Python developer"])
    /\ detail = "Quota exceeded".
Proof.
  destruct (http_error_gives_api_error
              (Demo.env (Ret Demo.features) (Ret [Demo.tie]) (Some "k")
                        (Ret Cases.quota_exceeded))
              "Data Scientist" "Python developer" "k" [] Cases.quota_exceeded
              eq_refl eq_refl eq_refl ltac:(discriminate))
    as (detail & Hrun & Hmessage & _).
  exists detail. split; [exact Hrun|].
  exact (Hmessage _ _ _ eq_refl eq_refl eq_refl).
Defined.

(** X11: what goes wrong inside the [try] comes back as the one record
    Exception with the exception's text: a request that raises, a 200
    answer whose body is not JSON, and one whose body has no candidates. *)
Theorem transport_and_shape_errors (env : Env) (job_title resume_text key : string)
    (log : NetLog) :
  gemini_api_key env = Some key ->
  truthy key = true ->
  let sentinel message :=
    (Ret (JArr [course_dict
                  (Course "Exception" "N/A"
                     ("Exception when calling Gemini API: " +:+ message)
                     "" "Please check your network connection.")]),
     log ++ [request_for key job_title resume_text]) in
  (forall e,
      requests_post env log (request_for key job_title resume_text) = Raise e ->
      get_training_courses env job_title resume_text log = sentinel (exn_str e))
  /\ (forall response e,
        requests_post env log (request_for key job_title resume_text)
        = Ret response ->
        status_code response = 200 ->
        resp_json response = Raise e ->
        get_training_courses env job_title resume_text log
        = sentinel (exn_str e))
  /\ (forall response items,
        requests_post env log (request_for key job_title resume_text)
        = Ret response ->
        status_code response = 200 ->
        resp_json response = Ret (JObj items) ->
        PyVal.lookup "candidates" items = None ->
        get_training_courses env job_title resume_text log
        = sentinel "'candidates'").
Proof.
  intros Hkey Htruthy sentinel. subst sentinel. cbv beta. split; [|split].
  - intros e Hpost.
    by apply (get_training_courses_post_raises env job_title resume_text key log).
  - intros response e Hpost Hstatus Hbody.
    apply (get_training_courses_bad_body env job_title resume_text key log
             Hkey Htruthy response e Hpost Hstatus).
    unfold text_of_response. run_outcome. by rewrite Hbody.
  - intros response items Hpost Hstatus Hbody Hmissing.
    apply (get_training_courses_bad_body env job_title resume_text key log
             Hkey Htruthy response (Exn KeyError "'candidates'") Hpost Hstatus).
    unfold text_of_response. run_outcome. rewrite Hbody. cbn.
    by rewrite Hmissing.
Qed.

Lemma transport_and_shape_errors_witness :
  get_training_courses
    (Demo.env (Ret Demo.features) (Ret [Demo.tie]) (Some "k")
              (Raise Cases.timed_out))
    "Data Scientist" "Python developer" []
  = (Ret (JArr [course_dict
                  (Course "Exception" "N/A"
                     "Exception when calling Gemini API: Connection to the API timed out."
                     "" "Please check your network connection.")]),
     [request_for "k" "Data Scientist" "Python developer"]).
Proof.
  exact (proj1 (transport_and_shape_errors
                  (Demo.env (Ret Demo.features) (Ret [Demo.tie]) (Some "k")
                            (Raise Cases.timed_out))
                  "Data Scientist" "Python developer" "k" [] eq_refl eq_refl)
               Cases.timed_out eq_refl).
Defined.

(** ** The pipeline: how the steps compose *)

Section Composition.

Context (env : Env) (resume_text : string).

(** The request log after the loop of lines 327-334 over [jobs]. *)
Let log_after (log : NetLog) (jobs : list Recommendation) : NetLog :=
  match gemini_api_key env with
  | Some key =>
      if truthy key
      then log ++ ((fun job => request_for key (job_title job) resume_text) <$> jobs)
      else log
  | None => log
  end.

Lemma enrich_job_log job log :
  exists courses,
    enrich_job env resume_text job log
    = (Ret {| result_job_title := job_title job;
              result_confidence := confidence job;
              training_courses := courses |},
       log_after log [job])
    /\ (key_missing (gemini_api_key env) = true ->
        courses = course_list [api_key_missing]).
Proof.
  unfold enrich_job, log_after. run_net.
  destruct (gemini_api_key env) as [key|] eqn:Hkey.
  - destruct (truthy key) eqn:Htruthy.
    + destruct (get_training_courses_one_request env (job_title job) resume_text
                  key log Hkey Htruthy) as [courses ->].
      exists courses. split; [reflexivity|].
      unfold key_missing. by rewrite Htruthy.
    + rewrite get_training_courses_no_key
        by (unfold key_missing; by rewrite Hkey, Htruthy).
      by eexists.
  - rewrite get_training_courses_no_key by (unfold key_missing; by rewrite Hkey).
    by eexists.
Qed.

Lemma log_after_cons log job jobs :
  log_after (log_after log [job]) jobs = log_after log (job :: jobs).
Proof.
  unfold log_after. destruct (gemini_api_key env) as [key|]; [|reflexivity].
  destruct (truthy key); [|reflexivity]. cbn. by rewrite <- List.app_assoc.
Qed.

Lemma enrich_all jobs :
  forall log, exists results,
    Net.mapM (enrich_job env resume_text) jobs log
    = (Ret results, log_after log jobs)
    /\ result_job_title <$> results = job_title <$> jobs
    /\ result_confidence <$> results = confidence <$> jobs
    /\ (key_missing (gemini_api_key env) = true ->
        Forall (fun r => training_courses r = course_list [api_key_missing])
               results).
Proof.
  induction jobs as [|job jobs IH]; intros log.
  - exists []. split; [|by repeat split].
    cbn. unfold Net.ret, log_after.
    destruct (gemini_api_key env) as [key|]; [|reflexivity].
    destruct (truthy key); [|reflexivity]. cbn. by rewrite List.app_nil_r.
  - destruct (enrich_job_log job log) as (courses & Hjob & Hmissing).
    destruct (IH (log_after log [job])) as (results & Hrest & Htitles & Hconf & Hall).
    eexists. cbn [Net.mapM]. unfold Net.bind at 1. rewrite Hjob.
    unfold Net.bind. rewrite Hrest, log_after_cons. split; [reflexivity|].
    cbn. rewrite Htitles, Hconf. repeat split.
    intros Hkey. constructor; [by apply Hmissing | by apply Hall].
Qed.

End Composition.

(** X12: after a successful extraction the result has one entry per
    recommendation, in the same order and with the same titles and
    confidences; with a key, the requests sent are one per recommendation
    in that order, and without one nothing is sent. *)
Theorem results_follow_recommendations (env : Env) (file_path resume_text : string)
    (recs : list Recommendation) (log : NetLog) :
  extract_text_from_resume env file_path = Ret resume_text ->
  get_top_job_recommendations env resume_text 3 = Ret recs ->
  exists results log',
    process_resume_file env file_path log = (Ret (Recommendations results), log')
    /\ result_job_title <$> results = job_title <$> recs
    /\ result_confidence <$> results = confidence <$> recs
    /\ (forall key,
          gemini_api_key env = Some key -> truthy key = true ->
          log' = log ++ ((fun job => request_for key (job_title job) resume_text)
                           <$> recs))
    /\ (key_missing (gemini_api_key env) = true -> log' = log).
Proof.
  intros Hex Htop.
  destruct (enrich_all env resume_text recs log)
    as (results & Hrun & Htitles & Hconf & _).
  eexists results, _. split; [|split; [exact Htitles|split; [exact Hconf|split]]].
  - rewrite process_resume_file_of_body. unfold pipeline_body. run_net.
    by rewrite Hex, Htop, Hrun.
  - intros key Hkey Htruthy. cbv zeta. by rewrite Hkey, Htruthy.
  - unfold key_missing. cbv zeta.
    destruct (gemini_api_key env) as [key|]; [|done].
    by destruct (truthy key).
Qed.

Lemma results_follow_recommendations_witness :
  exists results log',
    process_resume_file
      (Demo.env (Ret Demo.features) (Ret [Demo.tie]) (Some "k")
                (Raise Cases.timed_out))
      "cv.PDF" []
    = (Ret (Recommendations results), log')
    /\ result_job_title <$> results = ["Software Engineer"; "Data Scientist"]
    /\ log' = [request_for "k" "Software Engineer" ("Python developer" +:+ PyStr.nl);
               request_for "k" "Data Scientist" ("Python developer" +:+ PyStr.nl)].
Proof.
  destruct (results_follow_recommendations
              (Demo.env (Ret Demo.features) (Ret [Demo.tie]) (Some "k")
                        (Raise Cases.timed_out))
              "cv.PDF" ("Python developer" +:+ PyStr.nl)
              [{| job_title := "Software Engineer"; confidence := (1 # 2)%Q |};
               {| job_title := "Data Scientist"; confidence := (1 # 2)%Q |}]
              [] eq_refl eq_refl)
    as (results & log' & Hrun & Htitles & _ & Hlog & _).
  exists results, log'. split; [exact Hrun|]. split; [exact Htitles|].
  exact (Hlog "k" eq_refl eq_refl).
Defined.

(** X13: without a key the whole pipeline sends nothing, and every entry
    of a result carries the record API Key Missing. *)
Theorem no_key_no_traffic (env : Env) (file_path : string) (log : NetLog) :
  key_missing (gemini_api_key env) = true ->
  exists result,
    process_resume_file env file_path log = (Ret result, log)
    /\ forall results,
         result = Recommendations results ->
         Forall (fun r => training_courses r = course_list [api_key_missing])
                results.
Proof.
  intros Hkey. rewrite process_resume_file_of_body. unfold pipeline_body. run_net.
  destruct (extract_text_from_resume env file_path) as [resume_text|e].
  - destruct (get_top_job_recommendations_returns env resume_text 3) as [recs ->].
    destruct (enrich_all env resume_text recs log)
      as (results & -> & _ & _ & Hall).
    exists (Recommendations results). split.
    + f_equal. cbv zeta. unfold key_missing in Hkey.
      destruct (gemini_api_key env) as [key|]; [|done].
      by destruct (truthy key).
    + intros ? [= <-]. by apply Hall.
  - exists (Error (exn_str e)). split; [reflexivity | discriminate].
Qed.

Lemma no_key_no_traffic_witness :
  exists result,
    process_resume_file
      (Demo.env (Ret Demo.features) (Ret [Demo.tie]) None (Ret (Demo.answer "")))
      "cv.PDF" []
    = (Ret result, []).
Proof.
  destruct (no_key_no_traffic
              (Demo.env (Ret Demo.features) (Ret [Demo.tie]) None
                        (Ret (Demo.answer "")))
              "cv.PDF" [] eq_refl) as (result & Hrun & _).
  by exists result.
Defined.

(** X14: the error shape comes from extraction alone: the pipeline returns
    [{error: message}] exactly when extraction raises an exception with
    that text, and then nothing is sent. *)
Theorem error_shape_is_extraction_failure (env : Env) (file_path : string)
    (log : NetLog) (message : string) :
  ((exists log', process_resume_file env file_path log = (Ret (Error message), log'))
   <-> (exists e, extract_text_from_resume env file_path = Raise e
                  /\ exn_str e = message))
  /\ (forall log',
        process_resume_file env file_path log = (Ret (Error message), log') ->
        log' = log).
Proof.
  rewrite process_resume_file_of_body. split; [split|].
  - intros [log' Hrun].
    destruct (pipeline_body_outcome env file_path log)
      as [(e & Hex & Hbody) | (text & results & log'' & _ & Hbody)];
      rewrite Hbody in Hrun; [|discriminate].
    injection Hrun as <- _. by exists e.
  - intros (e & Hex & <-). exists log.
    by rewrite (pipeline_body_extract_raises env file_path log e Hex).
  - intros log' Hrun.
    destruct (pipeline_body_outcome env file_path log)
      as [(e & Hex & Hbody) | (text & results & log'' & _ & Hbody)];
      rewrite Hbody in Hrun; [|discriminate].
    by injection Hrun as _ <-.
Qed.

Lemma error_shape_is_extraction_failure_witness :
  exists log',
    process_resume_file
      (Demo.env (Ret Demo.features) (Ret [Demo.tie]) (Some "k")
                (Ret (Demo.answer "")))
      "cv.txt" []
    = (Ret (Error "Resume file not found: cv.txt"), log').
Proof.
  apply (proj2 (proj1 (error_shape_is_extraction_failure
                         (Demo.env (Ret Demo.features) (Ret [Demo.tie]) (Some "k")
                                   (Ret (Demo.answer "")))
                         "cv.txt" [] "Resume file not found: cv.txt"))).
  exists (Exn FileNotFoundError "Resume file not found: cv.txt").
  split; reflexivity.
Defined.

(** ** Construction *)

Section Construction.

Lemma default_job_titles_keys n :
  ((fun i => (pretty i, "Job Category " +:+ pretty (i + 1)%nat)) <$> seq 0 n).*1
  = pretty <$> seq 0 n.
Proof. rewrite <- list_fmap_compose. reflexivity. Qed.

Lemma default_job_titles_NoDup n :
  NoDup ((fun i => (pretty i, "Job Category " +:+ pretty (i + 1)%nat)) <$> seq 0 n).*1.
Proof.
  rewrite default_job_titles_keys. apply NoDup_fmap_2; [apply _|]. apply NoDup_seq.
Qed.

Lemma default_job_titles_lookup n i :
  default_job_titles n !! pretty i
  = if (i <? n)%nat then Some ("Job Category " +:+ pretty (i + 1)%nat) else None.
Proof.
  unfold default_job_titles. destruct (Nat.ltb_spec i n) as [Hlt | Hge].
  - apply elem_of_list_to_map; [apply default_job_titles_NoDup|].
    apply (list_elem_of_fmap_2
             (fun i => (pretty i, "Job Category " +:+ pretty (i + 1)%nat))).
    apply elem_of_seq. lia.
  - apply not_elem_of_list_to_map_1. rewrite default_job_titles_keys.
    intros Hin. apply list_elem_of_fmap in Hin as (j & Heq & Hj).
    apply (inj pretty) in Heq as <-. apply elem_of_seq in Hj. lia.
Qed.

Lemma default_job_titles_size n : size (default_job_titles n) = n.
Proof.
  unfold default_job_titles.
  rewrite map_size_list_to_map by apply default_job_titles_NoDup.
  by rewrite length_fmap, length_seq.
Qed.

Lemma job_titles_of_returns host model job_mapping_path :
  exists titles,
    job_titles_of host model job_mapping_path = Ret titles
    /\ (titles = default_job_titles (output_dim model)
        \/ (os_path_exists host job_mapping_path = true
            /\ load_job_titles host job_mapping_path = Ret titles)).
Proof.
  unfold job_titles_of.
  destruct (os_path_exists host job_mapping_path); cbn; [|by eexists; eauto].
  destruct (load_job_titles host job_mapping_path); cbn; eexists; eauto.
Qed.

End Construction.

(** X15: the mapping made when the file is missing or unreadable has one
    label per model output: index [i] below [n] reads Job Category [i+1],
    no other index is present, and the size is [n]. *)
Theorem default_mapping_covers_outputs (n i : nat) :
  default_job_titles n !! pretty i
  = (if (i <? n)%nat then Some ("Job Category " +:+ pretty (i + 1)%nat) else None)
  /\ size (default_job_titles n) = n.
Proof. split; [apply default_job_titles_lookup | apply default_job_titles_size]. Qed.

(** X16: with that mapping the label of every recommendation is the one
    line 155 would make up itself, Job Category [idx+1], whether the index
    is in the mapping or not. *)
Theorem default_mapping_labels (env : Env) (n : nat) (scores : list Q) (idx : nat) :
  job_titles env = default_job_titles n ->
  (idx < length scores)%nat ->
  recommendation_at env scores idx
  = Ret {| job_title := "Job Category " +:+ pretty (idx + 1)%nat;
           confidence := Argsort.score_at scores idx |}.
Proof.
  intros Htitles Hidx. rewrite (recommendation_at_in_range env scores idx Hidx).
  rewrite Htitles, default_job_titles_lookup. by destruct (idx <? n)%nat.
Qed.

(** X17: construction fails when the model file is missing, with the path
    in the message, and passes on what the model or the vectorizer loader
    raises; once both have loaded it succeeds whatever happens to the
    mapping file, with the file's mapping or the default one, and with the
    key the environment holds, if any. *)
Theorem construction_outcomes (host : Host)
    (model_path vectorizer_path job_mapping_path : string) :
  (os_path_exists host model_path = false ->
   __init__ host model_path vectorizer_path job_mapping_path
   = Raise (Exn FileNotFoundError ("Model file not found: " +:+ model_path)))
  /\ (forall size e,
        os_path_exists host model_path = true ->
        os_path_getsize host model_path = Ret size ->
        load_model host model_path = Raise e ->
        __init__ host model_path vectorizer_path job_mapping_path = Raise e)
  /\ (forall size model e,
        os_path_exists host model_path = true ->
        os_path_getsize host model_path = Ret size ->
        load_model host model_path = Ret model ->
        load_vectorizer host vectorizer_path = Raise e ->
        __init__ host model_path vectorizer_path job_mapping_path = Raise e)
  /\ (forall size model vectorizer,
        os_path_exists host model_path = true ->
        os_path_getsize host model_path = Ret size ->
        load_model host model_path = Ret model ->
        load_vectorizer host vectorizer_path = Ret vectorizer ->
        exists titles,
          __init__ host model_path vectorizer_path job_mapping_path
          = Ret {| self_model := model;
                   self_vectorizer := vectorizer;
                   self_job_titles := titles;
                   self_gemini_api_key := environ_get host "VITE_GEMINI_API_KEY";
                   self_gemini_api_url := gemini_api_url |}
          /\ (titles = default_job_titles (output_dim model)
              \/ (os_path_exists host job_mapping_path = true
                  /\ load_job_titles host job_mapping_path = Ret titles))
          /\ (os_path_exists host job_mapping_path = false ->
              titles = default_job_titles (output_dim model))
          /\ (forall e, load_job_titles host job_mapping_path = Raise e ->
                        titles = default_job_titles (output_dim model))).
Proof.
  unfold __init__. split; [|split; [|split]].
  - by intros ->.
  - intros size e -> Hsize Hmodel. cbn [negb]. run_outcome.
    by rewrite Hsize, Hmodel.
  - intros size model e -> Hsize Hmodel Hvec. cbn [negb]. run_outcome.
    by rewrite Hsize, Hmodel, Hvec.
  - intros size model vectorizer -> Hsize Hmodel Hvec. cbn [negb].
    destruct (job_titles_of_returns host model job_mapping_path)
      as (titles & Htitles & Hfrom).
    exists titles. split; [|split; [exact Hfrom|split]].
    + run_outcome. by rewrite Hsize, Hmodel, Hvec, Htitles.
    + intros Hmissing. by destruct Hfrom as [? | [? _]]; [|congruence].
    + intros e He. by destruct Hfrom as [? | [_ ?]]; [|congruence].
Qed.

Lemma default_mapping_labels_witness :
  recommendation_at Cases.default_env Demo.tie 1
  = Ret {| job_title := "Job Category 2"; confidence := (1 # 2)%Q |}.
Proof.
  exact (default_mapping_labels Cases.default_env 2 Demo.tie 1 eq_refl
           ltac:(cbn; lia)).
Defined.

Lemma construction_outcomes_witness :
  exists titles,
    __init__ (Cases.host true) "model/model3.h5" "vectorizer.pkl" "job_titles.json"
    = Ret {| self_model := {| predict := fun _ => Ret [Demo.tie];
                              input_dim := 3; output_dim := 2 |};
             self_vectorizer := fun _ => Ret Demo.features;
             self_job_titles := titles;
             self_gemini_api_key := None;
             self_gemini_api_url := gemini_api_url |}
    /\ titles = default_job_titles 2.
Proof.
  destruct (proj2 (proj2 (proj2
              (construction_outcomes (Cases.host true) "model/model3.h5"
                 "vectorizer.pkl" "job_titles.json")))
              250000 _ _ eq_refl eq_refl eq_refl eq_refl)
    as (titles & Hrun & _ & _ & Hdamaged).
  exists titles. split; [exact Hrun|]. exact (Hdamaged _ eq_refl).
Defined.

(** ** The keyword system of the fallback mode *)

Section Keywords.

Import FallbackSystem.

Lemma insert_desc_perm x l : insert_desc x l ≡ₚ x :: l.
Proof.
  induction l as [|y l IH]; cbn; [reflexivity|].
  destruct (snd y <=? snd x)%nat; [reflexivity|].
  rewrite IH. apply Permutation_swap.
Qed.

Lemma sorted_desc_perm l : sorted_desc l ≡ₚ l.
Proof.
  induction l as [|x l IH]; [reflexivity|].
  change (sorted_desc (x :: l)) with (insert_desc x (sorted_desc l)).
  by rewrite insert_desc_perm, IH.
Qed.

Lemma insert_desc_sorted x l :
  StronglySorted (fun a b => (snd b <= snd a)%nat) l ->
  StronglySorted (fun a b => (snd b <= snd a)%nat) (insert_desc x l).
Proof.
  induction 1 as [|y l Hl IH Hy]; cbn; [repeat constructor|].
  destruct (Nat.leb_spec (snd y) (snd x)) as [Hle | Hgt].
  - constructor; [by constructor|]. constructor; [exact Hle|].
    eapply Forall_impl; [exact Hy|]. cbn. lia.
  - constructor; [exact IH|]. rewrite insert_desc_perm.
    constructor; [lia | exact Hy].
Qed.

Lemma sorted_desc_sorted l :
  StronglySorted (fun a b => (snd b <= snd a)%nat) (sorted_desc l).
Proof.
  induction l as [|x l IH]; [constructor|].
  change (sorted_desc (x :: l)) with (insert_desc x (sorted_desc l)).
  by apply insert_desc_sorted.
Qed.

(** Stability: a list that is in order already comes back as it is. *)
Lemma sorted_desc_id l :
  StronglySorted (fun a b => (snd b <= snd a)%nat) l -> sorted_desc l = l.
Proof.
  induction 1 as [|x l _ IH Hx]; [reflexivity|].
  change (sorted_desc (x :: l)) with (insert_desc x (sorted_desc l)).
  rewrite IH. destruct l as [|y l]; [reflexivity|].
  apply Forall_inv in Hx. cbn [insert_desc]. by apply Nat.leb_le in Hx as ->.
Qed.

Lemma py_min_cap s :
  (5 <= s)%nat ->
  py_min (19 # 20) (py_max (1 # 2) ((1 # 2) + inject_Z (Z.of_nat s) / 10))
  = (19 # 20)%Q.
Proof.
  intros Hs. unfold py_min.
  replace (Qle_bool (19 # 20) _) with true; [reflexivity|].
  symmetry. apply Qle_bool_iff. unfold py_max.
  destruct (Qle_bool _ (1 # 2)) eqn:Hle.
  - apply Qle_bool_iff in Hle. revert Hle.
    unfold Qle, Qplus, Qdiv, Qmult, Qinv, inject_Z. cbn. lia.
  - unfold Qle, Qplus, Qdiv, Qmult, Qinv, inject_Z. cbn. lia.
Qed.

(** The six values a confidence can take. *)
Lemma confidence_of_table s :
  confidence_of s
  = nth s [(50 # 100)%Q; (60 # 100)%Q; (70 # 100)%Q; (80 # 100)%Q; (90 # 100)%Q]
        (95 # 100)%Q.
Proof.
  destruct s as [|[|[|[|[|s]]]]]; try (vm_compute; reflexivity).
  unfold confidence_of. rewrite py_min_cap by lia.
  by destruct s as [|[|[|[|[|s]]]]].
Qed.

Lemma confidence_of_bounds s :
  (1 # 2 <= confidence_of s)%Q /\ (confidence_of s <= 19 # 20)%Q.
Proof.
  rewrite confidence_of_table.
  destruct s as [|[|[|[|[|s]]]]]; cbn [nth]; split; try by vm_compute.
  all: by destruct s as [|[|[|[|[|s]]]]]; vm_compute.
Qed.

Lemma confidence_of_mono s1 s2 :
  (s1 <= s2)%nat -> (confidence_of s1 <= confidence_of s2)%Q.
Proof.
  intros Hle. rewrite !confidence_of_table.
  destruct s1 as [|[|[|[|[|s1]]]]]; destruct s2 as [|[|[|[|[|s2]]]]];
    try lia; cbn [nth]; try by vm_compute.
  all: try (by destruct s2 as [|[|[|[|[|s2]]]]]; vm_compute).
  by destruct s1 as [|[|[|[|[|s1]]]]]; destruct s2 as [|[|[|[|[|s2]]]]]; vm_compute.
Qed.

Lemma job_scores_titles text : (job_scores text).*1 = keywords.*1.
Proof. unfold job_scores. by rewrite <- list_fmap_compose. Qed.

Lemma take_length_str n s :
  String.length (PyStr.take n s) = Nat.min n (String.length s).
Proof.
  revert s. induction n as [|n IH]; intros [|c s]; cbn; try reflexivity.
  by rewrite IH.
Qed.

Lemma take_all_str n s : (String.length s <= n)%nat -> PyStr.take n s = s.
Proof.
  revert s. induction n as [|n IH]; intros [|c s]; cbn; try reflexivity; try lia.
  intros Hle. rewrite IH; [reflexivity | lia].
Qed.

End Keywords.

(** X18: whatever the text, the keyword analysis recommends exactly three
    different jobs of its table, each with a confidence from 0.5 to 0.95,
    the confidences never rising down the list. *)
Theorem keyword_analysis_shape (resume_text : string) :
  let recs := FallbackSystem.recommendations (FallbackSystem.analyse resume_text) in
  length recs = 3%nat
  /\ Forall (fun r => (1 # 2 <= result_confidence r)%Q
                      /\ (result_confidence r <= 19 # 20)%Q) recs
  /\ StronglySorted
       (fun r1 r2 => (result_confidence r2 <= result_confidence r1)%Q) recs
  /\ NoDup (result_job_title <$> recs)
  /\ (forall title, title ∈ result_job_title <$> recs ->
                    title ∈ FallbackSystem.keywords.*1).
Proof.
  cbv zeta. unfold FallbackSystem.analyse. cbn [FallbackSystem.recommendations].
  set (sorted := FallbackSystem.sorted_desc (FallbackSystem.job_scores resume_text)).
  assert (Hperm : sorted.*1 ≡ₚ FallbackSystem.keywords.*1).
  { unfold sorted. by rewrite sorted_desc_perm, job_scores_titles. }
  assert (Htitles : result_job_title <$> (FallbackSystem.recommendation_of <$> take 3 sorted)
                    = take 3 sorted.*1).
  { by rewrite <- list_fmap_compose, fmap_take. }
  split; [|split; [|split; [|split]]].
  - rewrite length_fmap, length_take.
    assert (Hlen : length sorted = 5%nat).
    { rewrite <- (length_fmap fst), Hperm. reflexivity. }
    rewrite Hlen. reflexivity.
  - apply Forall_fmap, Forall_forall. intros entry _.
    apply confidence_of_bounds.
  - apply (StronglySorted_fmap _ (fun a b => (snd b <= snd a)%nat)).
    + intros a b Hle. by apply confidence_of_mono.
    + pose proof (sorted_desc_sorted (FallbackSystem.job_scores resume_text)) as Hs.
      fold sorted in Hs. rewrite <- (take_drop 3 sorted) in Hs.
      by apply StronglySorted_app_1_l in Hs.
  - rewrite Htitles.
    assert (Hnd : NoDup sorted.*1).
    { rewrite Hperm. apply NoDup_ListNoDup. vm_compute.
      repeat (constructor; [intros Hin; cbn in Hin; intuition discriminate|]).
      constructor. }
    rewrite <- (take_drop 3 sorted.*1) in Hnd.
    by apply NoDup_app in Hnd as [Hnd _].
  - intros title. rewrite Htitles, <- Hperm. intros Hin.
    rewrite <- (take_drop 3 sorted.*1). apply elem_of_app. by left.
Qed.

(** X19: jobs whose scores already stand in non-increasing order in the
    table keep the table's order, so when all five tie, as for a text with
    no keyword, the first three jobs of the table are recommended; a text
    with no keyword gets 0.5 for each. *)
Theorem ties_keep_table_order (resume_text : string) :
  (StronglySorted (fun a b => (snd b <= snd a)%nat)
     (FallbackSystem.job_scores resume_text) ->
   result_job_title
     <$> FallbackSystem.recommendations (FallbackSystem.analyse resume_text)
   = ["Data Scientist"; "Software Engineer"; "Product Manager"])
  /\ (Forall (fun entry => snd entry = 0%nat) (FallbackSystem.job_scores resume_text) ->
      FallbackSystem.recommendations (FallbackSystem.analyse resume_text)
      = FallbackSystem.recommendation_of
          <$> [("Data Scientist", 0%nat); ("Software Engineer", 0%nat);
               ("Product Manager", 0%nat)]).
Proof.
  unfold FallbackSystem.analyse. cbn [FallbackSystem.recommendations]. split.
  - intros Hs. rewrite (sorted_desc_id _ Hs).
    rewrite <- list_fmap_compose, fmap_take.
    change (fst <$> FallbackSystem.job_scores resume_text)
      with (FallbackSystem.job_scores resume_text).*1.
    by rewrite job_scores_titles.
  - intros Hzero. rewrite sorted_desc_id.
    + f_equal. pose proof (job_scores_titles resume_text) as Ht.
      destruct (FallbackSystem.job_scores resume_text)
        as [|[j1 s1] [|[j2 s2] [|[j3 s3] rest]]]; try discriminate.
      apply Forall_cons in Hzero as [H1 Hzero].
      apply Forall_cons in Hzero as [H2 Hzero].
      apply Forall_cons in Hzero as [H3 _].
      cbn in *. by simplify_eq.
    + induction Hzero as [|entry l Hentry Hl IH]; constructor; [exact IH|].
      eapply Forall_impl; [exact Hl|]. cbn. lia.
Qed.

Lemma ties_keep_table_order_witness :
  FallbackSystem.recommendations (FallbackSystem.analyse Cases.plain_text)
  = FallbackSystem.recommendation_of
      <$> [("Data Scientist", 0%nat); ("Software Engineer", 0%nat);
           ("Product Manager", 0%nat)].
Proof.
  apply (proj2 (ties_keep_table_order Cases.plain_text)).
  vm_compute. repeat constructor.
Defined.

(** X20: extraction in the fallback mode raises nothing: a failing parser,
    an unreadable text file and an unsupported extension each give a
    message in place of the resume text, and that message is what then
    gets analysed. *)
Theorem fallback_extraction_returns_messages (env : Env)
    (read_text : string -> outcome string) (file_path : string) :
  exists text,
    FallbackSystem.extract_text_from_resume env read_text file_path = Ret text
    /\ FallbackSystem.process_resume_file env read_text file_path
       = Ret (FallbackSystem.analyse text)
    /\ (forall e,
          PyStr.endswith ".pdf" (PyStr.lower file_path) = true ->
          read_pdf env file_path = Raise e ->
          text = "Error extracting text: " +:+ exn_str e)
    /\ (forall e,
          PyStr.endswith ".pdf" (PyStr.lower file_path) = false ->
          PyStr.endswith ".docx" (PyStr.lower file_path) = false ->
          PyStr.endswith ".txt" (PyStr.lower file_path) = true ->
          read_text file_path = Raise e ->
          text = "Error reading text file: " +:+ exn_str e)
    /\ (PyStr.endswith ".pdf" (PyStr.lower file_path) = false ->
        PyStr.endswith ".docx" (PyStr.lower file_path) = false ->
        PyStr.endswith ".txt" (PyStr.lower file_path) = false ->
        text = "Unsupported file format. Only .pdf, .docx, and .txt are supported.").
Proof.
  unfold FallbackSystem.process_resume_file, FallbackSystem.extract_text_from_resume.
  run_outcome.
  destruct (PyStr.endswith ".pdf" _).
  { destruct (read_pdf env file_path) as [text|e];
      eexists; (split; [reflexivity|]); (split; [reflexivity|]);
      repeat split; intros; try discriminate; by simplify_eq. }
  destruct (PyStr.endswith ".docx" _).
  { destruct (read_docx env file_path) as [text|e];
      eexists; (split; [reflexivity|]); (split; [reflexivity|]);
      repeat split; intros; discriminate. }
  destruct (PyStr.endswith ".txt" _).
  { destruct (read_text file_path) as [text|e];
      eexists; (split; [reflexivity|]); (split; [reflexivity|]);
      repeat split; intros; try discriminate; by simplify_eq. }
  eexists. split; [reflexivity|]. split; [reflexivity|].
  repeat split; intros; try discriminate; reflexivity.
Qed.

(** X21: the text handed back is the resume text when that has at most
    500 characters, and its first 500 characters followed by three dots
    otherwise; it never has more than 503 characters. *)
Theorem preview_is_bounded (resume_text : string) :
  (String.length (FallbackSystem.preview resume_text) <= 503)%nat
  /\ ((String.length resume_text <= 500)%nat ->
      FallbackSystem.preview resume_text = resume_text)
  /\ ((500 < String.length resume_text)%nat ->
      FallbackSystem.preview resume_text = PyStr.take 500 resume_text +:+ "..."
      /\ String.length (FallbackSystem.preview resume_text) = 503%nat).
Proof.
  unfold FallbackSystem.preview.
  destruct (Nat.ltb_spec 500 (String.length resume_text)) as [Hlong | Hshort].
  - assert (Hlen : String.length (PyStr.take 500 resume_text +:+ "...") = 503%nat).
    { rewrite length_app, take_length_str. cbn [String.length]. lia. }
    split; [lia|]. split; [lia|]. by intros _.
  - rewrite app_empty_r, (take_all_str 500 resume_text Hshort).
    split; [lia|]. split; [done | lia].
Qed.

Lemma fallback_extraction_returns_messages_witness :
  exists text,
    FallbackSystem.extract_text_from_resume
      (Demo.env (Ret Demo.features) (Ret [Demo.tie]) None (Ret (Demo.answer "")))
      (fun _ => Raise Cases.timed_out) "notes.md"
    = Ret text
    /\ text = "Unsupported file format. Only .pdf, .docx, and .txt are supported.".
Proof.
  destruct (fallback_extraction_returns_messages
              (Demo.env (Ret Demo.features) (Ret [Demo.tie]) None
                        (Ret (Demo.answer "")))
              (fun _ => Raise Cases.timed_out) "notes.md")
    as (text & Hrun & _ & _ & _ & Hunsupported).
  exists text. split; [exact Hrun|].
  exact (Hunsupported eq_refl eq_refl eq_refl).
Defined.

Lemma preview_is_bounded_witness :
  FallbackSystem.preview Cases.plain_text = Cases.plain_text.
Proof.
  apply (proj1 (proj2 (preview_is_bounded Cases.plain_text))).
  vm_compute. repeat constructor.
Defined.

(** ** The fallback parser: the value of a field *)

Lemma split1_first sep key value :
  PyStr.find sep key = -1 ->
  PyStr.split1 sep (key +:+ String sep value) = [key; value].
Proof.
  induction key as [|c key IH]; rewrite ?app_nil_l, ?app_cons; cbn [PyStr.split1].
  - intros _. by rewrite Ascii.eqb_refl.
  - intros Hkey. apply find_absent_cons in Hkey as [-> Hkey]. by rewrite (IH Hkey).
Qed.

(** X22: on a line that only the URL trigger matches, the value is all
    that follows the first colon, stripped, with later colons kept; the
    other fields stay as they are.  A bare address therefore loses its
    scheme. *)
Theorem url_is_cut_at_first_colon (course : CourseRecord) (line key value : string) :
  PyStr.strip line = key +:+ ":" +:+ value ->
  PyStr.find ":" key = -1 ->
  PyStr.contains "course" (PyStr.lower (PyStr.strip line)) = false ->
  PyStr.contains "name" (PyStr.lower (PyStr.strip line)) = false ->
  PyStr.contains "provider" (PyStr.lower (PyStr.strip line)) = false ->
  PyStr.contains "description" (PyStr.lower (PyStr.strip line)) = false ->
  PyStr.contains "url" (PyStr.lower (PyStr.strip line))
  || PyStr.contains "http" (PyStr.lower (PyStr.strip line)) = true ->
  field_step course line
  = Course (course_name course) (provider course) (description course)
           (PyStr.strip value) (relevance course).
Proof.
  intros Hline Hkey Hcourse Hname Hprovider Hdescription Hurl.
  unfold field_step. rewrite Hcourse, Hname, Hprovider, Hdescription, Hurl.
  cbn [orb]. unfold assign_after_colon. rewrite Hline.
  change (key +:+ ":" +:+ value) with (key +:+ String ":" value).
  by rewrite (split1_first ":" key value Hkey).
Qed.

Lemma url_is_cut_at_first_colon_witness :
  field_step (Course "Unknown Course" "Unknown Provider" "" "" "")
             "  https://example.org/python-basics "
  = Course "Unknown Course" "Unknown Provider" "" "//example.org/python-basics" "".
Proof.
  exact (url_is_cut_at_first_colon
           (Course "Unknown Course" "Unknown Provider" "" "" "")
           "  https://example.org/python-basics " "https"
           "//example.org/python-basics"
           eq_refl eq_refl eq_refl eq_refl eq_refl eq_refl eq_refl).
Defined.

(** ** Text extraction: the text returned *)

Lemma mapM_pages (texts : list (option string)) :
  Outcome.mapM (fun page : outcome (option string) => t ← page; mret (or_empty t))
    (Ret <$> texts)
  = Ret (or_empty <$> texts).
Proof.
  induction texts as [|t texts IH]; [reflexivity|].
  cbn [fmap list_fmap Outcome.mapM]. cbn in IH |- *. by rewrite IH.
Qed.

(** X23: for an existing PDF whose pages all extract, the text is the page
    texts joined by newlines, a page without text counting as empty; a
    document without pages gives the empty text, not an error.  For an
    existing DOCX it is the paragraphs joined by newlines. *)
Theorem extracted_text_is_joined (env : Env) (file_path : string) :
  path_exists env file_path = true ->
  (forall texts,
      PyStr.endswith ".pdf" (PyStr.lower file_path) = true ->
      pdfplumber_open env file_path = Ret (Ret <$> texts) ->
      extract_text_from_resume env file_path
      = Ret (PyStr.join PyStr.nl (or_empty <$> texts)))
  /\ (PyStr.endswith ".pdf" (PyStr.lower file_path) = true ->
      pdfplumber_open env file_path = Ret [] ->
      extract_text_from_resume env file_path = Ret "")
  /\ (forall paragraphs,
        PyStr.endswith ".pdf" (PyStr.lower file_path) = false ->
        PyStr.endswith ".docx" (PyStr.lower file_path) = true ->
        docx_Document env file_path = Ret paragraphs ->
        extract_text_from_resume env file_path
        = Ret (PyStr.join PyStr.nl paragraphs)).
Proof.
  intros Hex. unfold extract_text_from_resume. rewrite Hex. cbn [negb].
  split; [|split].
  - intros texts -> Hopen. unfold read_pdf. rewrite Hopen. run_outcome.
    by rewrite mapM_pages.
  - intros -> Hopen. unfold read_pdf. by rewrite Hopen.
  - intros paragraphs -> -> Hopen. unfold read_docx. by rewrite Hopen.
Qed.

Lemma extracted_text_is_joined_witness :
  extract_text_from_resume
    (Demo.env (Ret Demo.features) (Ret [Demo.tie]) None (Ret (Demo.answer "")))
    "cv.PDF"
  = Ret (PyStr.join PyStr.nl ["Python developer"; ""]).
Proof.
  exact (proj1 (extracted_text_is_joined
                  (Demo.env (Ret Demo.features) (Ret [Demo.tie]) None
                            (Ret (Demo.answer "")))
                  "cv.PDF" eq_refl)
               [Some "Python developer"; None] eq_refl eq_refl).
Defined.
